(** * LDA_with_Grid.py: the [LDA] grid-search wrapper

    A shallow embedding of the class [LDA] of
    [DEDA_class_SoSe2023_LDA_MSc_Theses/LDA_with_Grid.py].

    - Python [int]s are [Z]; indices produced by [enumerate] are [nat].
    - A Python [float] that is a number is the rational it denotes ([Q]);
      the value [nan], on which every ordering comparison is false, is kept
      as a separate constructor.  Infinities do not occur in the model.
    - A [dict] is an association list in insertion order.
    - The object's attributes are a record, the file system is a pair of a
      set of directories and a finite map from paths to contents, and a
      method is a function from the state to a result and a new state; an
      exception leaves the state as it was when it was raised.
    - Creating a directory and writing a file always go through: failures of
      the operating system (a regular file where a directory is needed, a
      directory where a file is written, permissions, a full disk) are not
      modelled, and the properties below are about runs without them.
    - gensim, pyLDAvis and pandas are behind the interface [Library].  Every
      model is fitted with [random_state = 66], so a fit is a function of
      its arguments; a call into the library may raise.
    - Years are integers, on which [int(key)] is the identity, and a batch
      is the list that [list(item)] makes of a range.
    - Output on [stdout] ([print]) is not modelled, and neither are the
      plotting methods [lineplot_scores] and [DTM_Plot] nor [DTM_upload]. *)

From Stdlib Require Import QArith.
From stdpp Require Import base option list gmap strings pretty.

Local Open Scope Z_scope.

(** ** Python values *)

Inductive pyfloat : Type :=
  | Fin (q : Q)
  | NaN.

Definition Qltb (a b : Q) : bool := negb (Qle_bool b a).

(** [x > y] on floats (also used when one side is the [int] [-1]). *)
Definition py_gt (x y : pyfloat) : bool :=
  match x, y with
  | Fin a, Fin b => Qltb b a
  | _, _ => false
  end.

(** The order on floats that are numbers, as propositions. *)
Definition pf_le (x y : pyfloat) : Prop :=
  match x, y with
  | Fin a, Fin b => (a <= b)%Q
  | _, _ => False
  end.

Definition pf_lt (x y : pyfloat) : Prop :=
  match x, y with
  | Fin a, Fin b => (a < b)%Q
  | _, _ => False
  end.

(** alpha and eta of [LdaModel]: a number or a named policy such as
    ['symmetric'] or ['auto']. *)
Inductive density : Type :=
  | DNum (q : Q)
  | DSym (s : string).

Inductive exn : Type :=
  | Exception (msg : string)
  | ValueError (msg : string)
  | TypeError (msg : string)
  | IndexError (msg : string)
  | KeyError (key : string)
  | AttributeError (msg : string)
  | LibraryError (msg : string).

Inductive result (A : Type) : Type :=
  | Ok (a : A)
  | Raise (e : exn).
Arguments Ok {A} a.
Arguments Raise {A} e.

Definition rbind {A B} (r : result A) (k : A → result B) : result B :=
  match r with
  | Ok a => k a
  | Raise e => Raise e
  end.

#[global] Instance result_ret : MRet result := @Ok.
#[global] Instance result_bind : MBind result := λ A B k r, rbind r k.

(** A [for] loop that carries local variables [acc] and stops at the first
    exception. *)
Fixpoint rfold {A B} (body : B → A → result B) (acc : B) (l : list A) : result B :=
  match l with
  | [] => Ok acc
  | x :: l' => acc' ← body acc x; rfold body acc' l'
  end.

(** [enumerate(l)] *)
Definition enumerate {A} (l : list A) : list (nat * A) := imap pair l.

(** ** dict *)

Module Dict.
Section dict.
Context {K V : Type} `{EqDecision K}.

Definition t : Type := list (K * V).

Definition empty : t := [].

(** [k in d] *)
Fixpoint mem (k : K) (d : t) : bool :=
  match d with
  | [] => false
  | (k', _) :: d' => if decide (k = k') then true else mem k d'
  end.

Fixpoint get (k : K) (d : t) : option V :=
  match d with
  | [] => None
  | (k', v) :: d' => if decide (k = k') then Some v else get k d'
  end.

(** [d[k] = v]: an existing key keeps its position, a new key goes last. *)
Fixpoint set (k : K) (v : V) (d : t) : t :=
  match d with
  | [] => [(k, v)]
  | (k', v') :: d' =>
      if decide (k = k') then (k, v) :: d' else (k', v') :: set k v d'
  end.

Definition items (d : t) : list (K * V) := d.

Definition values (d : t) : list V := d.*2.
End dict.
Arguments t : clear implicits.
End Dict.

(** [d[k]], raising [KeyError] on a missing key. *)
Definition getitem {K V} `{EqDecision K} (show : K → string) (k : K) (d : Dict.t K V)
    : result V :=
  match Dict.get k d with
  | Some v => Ok v
  | None => Raise (KeyError (show k))
  end.

(** [d[k] += n] *)
Definition iadd {K} `{EqDecision K} (show : K → string) (k : K) (n : Z)
    (d : Dict.t K Z) : result (Dict.t K Z) :=
  v ← getitem show k d; Ok (Dict.set k (v + n) d).

(** [item[0]] on a sequence. *)
Definition first_item {A} (item : list A) : result A :=
  match item with
  | x :: _ => Ok x
  | [] => Raise (IndexError "list index out of range")
  end.

(** [item[-1]] on a sequence. *)
Definition last_item {A} (item : list A) : result A :=
  match last item with
  | Some x => Ok x
  | None => Raise (IndexError "list index out of range")
  end.

(** ** The file system *)

Definition path : Type := list string.

(** [os.path.join(a, b)] *)
Definition join (a b : path) : path := a ++ b.

Fixpoint prefixes (p : path) : list path :=
  match p with
  | [] => []
  | c :: q => [c] :: map (cons c) (prefixes q)
  end.

(** ** The external libraries *)

(** A row of [self.scores]. *)
Record TrialRecord : Type := {
  n_topics : Z;
  alpha : density;
  beta : density;
  coherence_score : pyfloat;
  perplexity_score : pyfloat
}.

Inductive cell : Type :=
  | CInt (z : Z)
  | CStr (s : string)
  | CNum (x : pyfloat)
  | CDens (d : density).

Class Library : Type := {
  Corpus : Type;
  Dictionary : Type;
  Texts : Type;
  Model : Type;
  SeqModel : Type;
  Vis : Type;
  Frame : Type;
  (** [gensim.models.LdaModel(corpus, id2word, num_topics, random_state = 66,
      update_every = 1, chunksize = 100, passes = 10, alpha,
      per_word_topics = True, eta)] *)
  LdaModel : Corpus → Dictionary → Z → density → density → result Model;
  (** [CoherenceModel(model, texts, corpus, dictionary, coherence = 'c_v')
      .get_coherence()] *)
  get_coherence : Model → Texts → Corpus → Dictionary → result pyfloat;
  log_perplexity : Model → Corpus → result pyfloat;
  print_topics : Model → list (Z * string);
  (** [LdaSeqModel(corpus, id2word, time_slice, num_topics, alphas,
      initialize = 'ldamodel', lda_model, random_state = 66)] *)
  LdaSeqModel : Corpus → Dictionary → option (list Z) → Z → density →
                option Model → result SeqModel;
  (** [seq_m.print_topic_times(topic, top_terms = 30)] *)
  print_topic_times : SeqModel → Z → result (list (list (string * pyfloat)));
  (** the pandas pipeline of the local function [topic_time]: one frame per
      period, concatenated, grouped by word and summed, with the periods as
      column names *)
  topic_time : list (list (string * pyfloat)) → list string → result Frame;
  (** [pyLDAvis.enable_notebook()], which raises outside a notebook *)
  enable_notebook : result unit;
  (** [gensimvis.prepare(model, corpus, dictionary)] *)
  prepare : Model → Corpus → Dictionary → result Vis
}.

Section LDA.
Context `{Library}.

Inductive content : Type :=
  | SavedLda (m : Model)
  | SavedSeq (m : SeqModel)
  | CsvFile (rows : list (list cell))
  | FrameCsv (df : Frame)
  | HtmlFile (v : Vis).

Record FS : Type := {
  dirs : gset path;
  files : gmap path content
}.

Definition fs_empty : FS := {| dirs := ∅; files := ∅ |}.

(** [os.path.exists(p)] *)
Definition fs_exists (p : path) (f : FS) : bool :=
  bool_decide (p ∈ dirs f) || bool_decide (is_Some (files f !! p)).

(** [os.makedirs(p)]: the directory and the missing ones above it. *)
Definition fs_makedirs (p : path) (f : FS) : FS :=
  {| dirs := list_to_set (prefixes p) ∪ dirs f; files := files f |}.

(** Writing a whole file: [open(p, 'w')], [to_csv], [save], [save_html]. *)
Definition fs_write (p : path) (c : content) (f : FS) : FS :=
  {| dirs := dirs f; files := <[p := c]> (files f) |}.

(** ** The object *)

Record LDA : Type := {
  corpus : Corpus;
  dictionary : Dictionary;
  texts : Texts;
  dates : list (list Z);
  simple_model : option Model;
  best_params : option (Z * density * density);
  best_score : pyfloat;
  best_model : option Model;
  time_slice : option (list Z);
  (** [self.scores] does not exist before the first [grid_search] *)
  scores : option (list TrialRecord)
}.

Definition __init__ (corpus : Corpus) (dictionary : Dictionary) (texts : Texts)
    (dates : list (list Z)) : LDA :=
  {| corpus := corpus; dictionary := dictionary; texts := texts; dates := dates;
     simple_model := None;
     best_params := None;
     best_score := Fin (-1);
     best_model := None;
     time_slice := None;
     scores := None |}.

Definition set_simple_model (v : option Model) (o : LDA) : LDA :=
  {| corpus := corpus o; dictionary := dictionary o; texts := texts o;
     dates := dates o; simple_model := v; best_params := best_params o;
     best_score := best_score o; best_model := best_model o;
     time_slice := time_slice o; scores := scores o |}.

Definition set_best_params (v : option (Z * density * density)) (o : LDA) : LDA :=
  {| corpus := corpus o; dictionary := dictionary o; texts := texts o;
     dates := dates o; simple_model := simple_model o; best_params := v;
     best_score := best_score o; best_model := best_model o;
     time_slice := time_slice o; scores := scores o |}.

Definition set_best_score (v : pyfloat) (o : LDA) : LDA :=
  {| corpus := corpus o; dictionary := dictionary o; texts := texts o;
     dates := dates o; simple_model := simple_model o;
     best_params := best_params o; best_score := v; best_model := best_model o;
     time_slice := time_slice o; scores := scores o |}.

Definition set_best_model (v : option Model) (o : LDA) : LDA :=
  {| corpus := corpus o; dictionary := dictionary o; texts := texts o;
     dates := dates o; simple_model := simple_model o;
     best_params := best_params o; best_score := best_score o; best_model := v;
     time_slice := time_slice o; scores := scores o |}.

Definition set_time_slice (v : option (list Z)) (o : LDA) : LDA :=
  {| corpus := corpus o; dictionary := dictionary o; texts := texts o;
     dates := dates o; simple_model := simple_model o;
     best_params := best_params o; best_score := best_score o;
     best_model := best_model o; time_slice := v; scores := scores o |}.

Definition set_scores (v : option (list TrialRecord)) (o : LDA) : LDA :=
  {| corpus := corpus o; dictionary := dictionary o; texts := texts o;
     dates := dates o; simple_model := simple_model o;
     best_params := best_params o; best_score := best_score o;
     best_model := best_model o; time_slice := time_slice o; scores := v |}.

(** ** Methods: state and exceptions *)

Record World : Type := {
  self : LDA;
  fs : FS
}.

Definition M (A : Type) : Type := World → result A * World.

Definition M_ret_def {A} (a : A) : M A := λ w, (Ok a, w).

Definition M_bind_def {A B} (k : A → M B) (c : M A) : M B :=
  λ w, match c w with
       | (Ok a, w') => k a w'
       | (Raise e, w') => (Raise e, w')
       end.

#[global] Instance M_ret : MRet M := @M_ret_def.
#[global] Instance M_bind : MBind M := @M_bind_def.

Definition raise {A} (e : exn) : M A := λ w, (Raise e, w).

(** A computation that does not touch the state: a call into a library. *)
Definition call {A} (r : result A) : M A := λ w, (r, w).

(** Reading an attribute of [self]. *)
Definition attr {A} (field : LDA → A) : M A := λ w, (Ok (field (self w)), w).

(** Assigning an attribute of [self]. *)
Definition assign (upd : LDA → LDA) : M unit :=
  λ w, (Ok tt, {| self := upd (self w); fs := fs w |}).

Definition path_exists (p : path) : M bool := λ w, (Ok (fs_exists p (fs w)), w).

Definition makedirs (p : path) : M unit :=
  λ w, (Ok tt, {| self := self w; fs := fs_makedirs p (fs w) |}).

Definition write_file (p : path) (c : content) : M unit :=
  λ w, (Ok tt, {| self := self w; fs := fs_write p c (fs w) |}).

(** [if not os.path.exists(p): os.makedirs(p)] *)
Definition ensure_dir (p : path) : M unit :=
  ex ← path_exists p;
  if negb ex then makedirs p else mret tt.

(** [for x in l: body] *)
Fixpoint for_ {A} (l : list A) (body : A → M unit) : M unit :=
  match l with
  | [] => mret tt
  | x :: l' => body x;; for_ l' body
  end.

(** [self.scores.append(r)] *)
Definition scores_append (r : TrialRecord) : M unit :=
  sc ← attr scores;
  match sc with
  | Some l => assign (set_scores (Some (l ++ [r])))
  | None => raise (AttributeError "'LDA' object has no attribute 'scores'")
  end.

(** [t[i]] where [t] is [self.best_params] *)
Definition subscript {A} (t : option (Z * density * density))
    (proj : Z * density * density → A) : M A :=
  match t with
  | Some p => mret (proj p)
  | None => raise (TypeError "'NoneType' object is not subscriptable")
  end.

Definition get_coherence_score (n : Z) (alpha beta : density) : M (pyfloat * Model) :=
  corpus_ ← attr corpus;
  dictionary_ ← attr dictionary;
  texts_ ← attr texts;
  m ← call (LdaModel corpus_ dictionary_ n alpha beta);
  cm ← call (get_coherence m texts_ corpus_ dictionary_);
  mret (cm, m).

(** [pd.DataFrame(self.scores)] written by [to_csv(..., index = False)]: a
    header and one row per record; no column at all for an empty list. *)
Definition scores_rows (scores : list TrialRecord) : list (list cell) :=
  match scores with
  | [] => [[]]
  | _ =>
      [CStr "n_topics"; CStr "alpha"; CStr "beta"; CStr "coherence_score";
       CStr "perplexity_score"]
      :: map (λ r, [CInt (n_topics r); CDens (alpha r); CDens (beta r);
                    CNum (coherence_score r); CNum (perplexity_score r)]) scores
  end.

(** The body of the innermost loop of [grid_search]. *)
Definition grid_cell (n : Z) (alpha beta : density) : M unit :=
  '(coherence_score, model) ← get_coherence_score n alpha beta;
  corpus_ ← attr corpus;
  perplexity_score ← call (log_perplexity model corpus_);
  scores_append {| n_topics := n; alpha := alpha; beta := beta;
                   coherence_score := coherence_score;
                   perplexity_score := perplexity_score |};;
  best ← attr best_score;
  if py_gt coherence_score best then
    assign (set_best_score coherence_score);;
    assign (set_best_params (Some (n, alpha, beta)));;
    assign (set_best_model (Some model))
  else mret tt.

(** [verbose] only selects what is printed and is left out. *)
Definition grid_search (n_topics : list Z) (alphas betas : list density) : M unit :=
  assign (set_scores (Some []));;
  for_ n_topics (λ n,
    for_ alphas (λ alpha,
      for_ betas (λ beta, grid_cell n alpha beta)));;
  sc ← attr scores;
  let scores_df := scores_rows (default [] sc) in
  ensure_dir ["Topics_CSVs"];;
  write_file (join ["Topics_CSVs"] ["scores_from_search.csv"]) (CsvFile scores_df).

(** [simple_fit(n_top, alpha_val, beta_val)] *)
Definition simple_fit (n_top : Z) (alpha_val beta_val : density) : M Model :=
  corpus_ ← attr corpus;
  dictionary_ ← attr dictionary;
  texts_ ← attr texts;
  model ← call (LdaModel corpus_ dictionary_ n_top alpha_val beta_val);
  coherence ← call (get_coherence model texts_ corpus_ dictionary_);
  perplexity ← call (log_perplexity model corpus_);
  let topics := print_topics model in
  let simple_topics_df :=
    [CStr "Topic N"; CStr "Words"] :: map (λ t, [CInt t.1; CStr t.2]) topics in
  ensure_dir ["Topics_CSVs"];;
  write_file (join ["Topics_CSVs"] ["Topics_from_simple_model.csv"])
             (CsvFile simple_topics_df);;
  ensure_dir ["LDAModels_Gensim"];;
  write_file (join ["LDAModels_Gensim"] ["MSc_LDA_simple.gensim"]) (SavedLda model);;
  assign (set_simple_model (Some model));;
  mret model.

(** The rows that [build_best_model] writes with [csv.writer]. *)
Definition best_topics_rows (topics : list (Z * string)) : list (list cell) :=
  [CStr "Topic N"; CStr "Keywords"] :: map (λ t, [CInt t.1; CStr t.2]) topics.

Definition no_params : string :=
  "No parameters found for the best model. Make sure you have run the grid search already.".

Definition build_best_model : M Model :=
  bp ← attr best_params;
  match bp with
  | Some (n, alpha, beta) =>
      '(_, model) ← get_coherence_score n alpha beta;
      ensure_dir ["LDAModels_Gensim"];;
      write_file (join ["LDAModels_Gensim"] ["Grid_Best_MSc_LDA.gensim"])
                 (SavedLda model);;
      let topics := print_topics model in
      ensure_dir ["Topics_CSVs"];;
      write_file (join ["Topics_CSVs"] ["best_topics.csv"])
                 (CsvFile (best_topics_rows topics));;
      mret model
  | None =>
      raise (Exception no_params)
  end.

Definition dquote : string := String (Ascii.ascii_of_nat 34) EmptyString.

Definition viz_bad_type : string :=
  "Model type not valid. Please select either " +:+ dquote +:+ "best" +:+ dquote
  +:+ " or " +:+ dquote +:+ "simple" +:+ dquote +:+ ".".

Definition viz (model_type : string) : M Vis :=
  model ←
    (if decide (model_type = "best") then
       model ← attr best_model;
       match model with
       | None => raise (Exception "No best model found. Run grid_search first.")
       | Some m => mret m
       end
     else if decide (model_type = "simple") then
       model ← attr simple_model;
       match model with
       | None => raise (Exception "No simple model found. Run simple_fit() first.")
       | Some m => mret m
       end
     else raise (ValueError viz_bad_type));
  call enable_notebook;;
  corpus_ ← attr corpus;
  dictionary_ ← attr dictionary;
  viz ← call (prepare model corpus_ dictionary_);
  let plot_directory := ["Plots"] in
  ensure_dir plot_directory;;
  let html_path := join plot_directory ["lda_" +:+ model_type +:+ "_viz.html"] in
  write_file html_path (HtmlFile viz);;
  mret viz.

(** The first loop of [time_slicer]: [year_counts], one entry per year. *)
Definition count_year (year_counts : Dict.t Z Z) (item : list Z) : result (Dict.t Z Z) :=
  year ← first_item item;
  if Dict.mem year year_counts then iadd pretty year 1 year_counts
  else Ok (Dict.set year 1 year_counts).

(** The inner loop of the third loop: one [(key, value)] of [year_counts]
    against every batch. *)
Definition add_to_batches (year_batches : list (list Z)) (batches_counts : Dict.t nat Z)
    (kv : Z * Z) : result (Dict.t nat Z) :=
  let '(key, value) := kv in
  rfold (λ bc ib,
           let '(index, batch) := (ib : nat * list Z) in
           if bool_decide (key ∈ batch) then iadd pretty index value bc else Ok bc)
        batches_counts (enumerate year_batches).

Definition time_slicer (year_batches : list (list Z)) : M (list Z) :=
  dates_ ← attr dates;
  year_counts ← call (rfold count_year Dict.empty dates_);
  let batches_counts :=
    foldl (λ bc ib, Dict.set (ib.1 : nat) 0 bc) Dict.empty (enumerate year_batches) in
  batches_counts ←
    call (rfold (add_to_batches year_batches) batches_counts (Dict.items year_counts));
  let time_slice := Dict.values batches_counts in
  assign (set_time_slice (Some time_slice));;
  mret time_slice.

(** [f'{period[0]}-{period[-1]}'] *)
Definition period_label (period : list Z) : result string :=
  a ← first_item period;
  b ← last_item period;
  Ok (pretty a +:+ "-" +:+ pretty b).

Definition DTM (year_batches : list (list Z)) : M unit :=
  corpus_ ← attr corpus;
  dictionary_ ← attr dictionary;
  time_slice_ ← attr time_slice;
  bp ← attr best_params;
  num_topics ← subscript bp (λ p, p.1.1);
  alphas ← subscript bp (λ p, p.1.2);
  lda_model ← attr best_model;
  seq_m ← call (LdaSeqModel corpus_ dictionary_ time_slice_ num_topics alphas lda_model);
  ensure_dir ["LDAModels_Gensim"];;
  write_file (join ["LDAModels_Gensim"] ["DTM_model.gensim"]) (SavedSeq seq_m);;
  bp ← attr best_params;
  stop ← subscript bp (λ p, p.1.1);
  DTM_topics ← call (mapM (print_topic_times seq_m) (seqZ 0 stop));
  time_periods ← call (mapM period_label year_batches);
  topics_words_time ← call (mapM (λ topic, topic_time topic time_periods) DTM_topics);
  let directory := ["Topics_CSVs"; "topics_words_time"] in
  ensure_dir directory;;
  for_ (enumerate topics_words_time) (λ idf,
    let file_path :=
      join directory ["topic" +:+ pretty (Z.of_nat idf.1 + 1) +:+ "_words_time.csv"] in
    write_file file_path (FrameCsv idf.2)).

(** ** Reading the loops *)

(** One cell of the grid as a value: the record that [grid_search] appends
    for [(n, alpha, beta)] and the model fitted there. *)
Definition run_trial (o : LDA) (n : Z) (alpha beta : density)
    : result (TrialRecord * Model) :=
  m ← LdaModel (corpus o) (dictionary o) n alpha beta;
  c ← get_coherence m (texts o) (corpus o) (dictionary o);
  p ← log_perplexity m (corpus o);
  Ok ({| n_topics := n; alpha := alpha; beta := beta;
         coherence_score := c; perplexity_score := p |}, m).

(** The [if] of [grid_search] on the attributes. *)
Definition take_best (r : TrialRecord) (m : Model) (o : LDA) : LDA :=
  if py_gt (coherence_score r) (best_score o) then
    set_best_model (Some m)
      (set_best_params (Some (n_topics r, alpha r, beta r))
         (set_best_score (coherence_score r) o))
  else o.

Definition log_trial (o : LDA) (rm : TrialRecord * Model) : LDA :=
  take_best rm.1 rm.2 (set_scores (Some (default [] (scores o) ++ [rm.1])) o).

(** The cells in the order in which the three loops visit them. *)
Definition grid (ns : list Z) (alphas betas : list density)
    : list (Z * density * density) :=
  n ← ns; a ← alphas; b ← betas; [(n, a, b)].

Definition params (r : TrialRecord) : Z * density * density :=
  (n_topics r, alpha r, beta r).

(** The record at position [i] is a maximum of [hist], and the first one. *)
Definition first_max (hist : list TrialRecord) (i : nat) (r : TrialRecord) : Prop :=
  hist !! i = Some r ∧
  (∀ j r', hist !! j = Some r' → pf_le (coherence_score r') (coherence_score r)) ∧
  (∀ j r', (j < i)%nat → hist !! j = Some r' →
           pf_lt (coherence_score r') (coherence_score r)).

(** The best-trial attributes are those of the first maximum of [hist]. *)
Definition best_of (hist : list TrialRecord) (o : LDA) : Prop :=
  ∃ i r m,
    first_max hist i r ∧
    best_score o = coherence_score r ∧
    best_params o = Some (params r) ∧
    best_model o = Some m ∧
    LdaModel (corpus o) (dictionary o) (n_topics r) (alpha r) (beta r) = Ok m.

(** Nothing selected: the values that [__init__] assigns. *)
Definition no_best (o : LDA) : Prop :=
  best_score o = Fin (-1) ∧ best_params o = None ∧ best_model o = None.

(** The invariant of the best-trial attributes over the records [hist] of
    all searches so far. *)
Definition best_inv (hist : list TrialRecord) (o : LDA) : Prop :=
  (hist = [] ∧ no_best o) ∨ best_of hist o.

(** The year of a document, and the documents of a batch. *)
Definition year_of (item : list Z) : option Z := head item.

Definition in_batch (batch : list Z) (item : list Z) : bool :=
  match year_of item with
  | Some year => bool_decide (year ∈ batch)
  | None => false
  end.

Definition batch_count (dates : list (list Z)) (batch : list Z) : Z :=
  Z.of_nat (length (filter (λ item, in_batch batch item = true) dates)).

Definition sum_Z (l : list Z) : Z := foldr Z.add 0 l.

(** The body of the loops on a cell of [grid]. *)
Definition cell_of (t : Z * density * density) : M unit :=
  grid_cell t.1.1 t.1.2 t.2.

(** The cells of [ts] all run, with the outcomes [rms]. *)
Definition trials (o : LDA) (ts : list (Z * density * density))
    (rms : list (TrialRecord * Model)) : Prop :=
  Forall2 (λ t rm, run_trial o t.1.1 t.1.2 t.2 = Ok rm) ts rms.

(** What the entries of [year_counts] add to the slice of [batch]. *)
Definition batch_total (batch : list Z) (year_counts : Dict.t Z Z) : Z :=
  sum_Z ((λ kv, if bool_decide (kv.1 ∈ batch) then kv.2 else 0)
           <$> Dict.items year_counts).

(** The document is in one of the batches. *)
Definition matched (year_batches : list (list Z)) (item : list Z) : bool :=
  existsb (λ batch, in_batch batch item) year_batches.

(** The file system after [ensure_dir]. *)
Definition fs_ensure (p : path) (f : FS) : FS :=
  if fs_exists p f then f else fs_makedirs p f.

Definition scores_csv : path := join ["Topics_CSVs"] ["scores_from_search.csv"].
Definition best_topics_csv : path := join ["Topics_CSVs"] ["best_topics.csv"].
Definition best_model_file : path :=
  join ["LDAModels_Gensim"] ["Grid_Best_MSc_LDA.gensim"].

End LDA.

(** ** [DTM_upload] and further readings of the methods *)

Section LDA_upload.
Context `{Library}.

Definition dtm_model_file : path := ["LDAModels_Gensim"; "DTM_model.gensim"].

Definition topics_directory : path := ["Topics_CSVs"; "topics_words_time"].

(** The file of topic [i], counted from 0. *)
Definition topic_csv (i : nat) : path :=
  join topics_directory ["topic" +:+ pretty (Z.of_nat i + 1) +:+ "_words_time.csv"].

(** What [DTM] and [DTM_upload] do with the sequential model once they have
    it: the topics over time, the labels of the periods, one frame and one
    CSV per topic. *)
Definition export_topics (seq_m : SeqModel) (year_batches : list (list Z)) : M unit :=
  bp ← attr best_params;
  stop ← subscript bp (λ p, p.1.1);
  DTM_topics ← call (mapM (print_topic_times seq_m) (seqZ 0 stop));
  time_periods ← call (mapM period_label year_batches);
  topics_words_time ← call (mapM (λ topic, topic_time topic time_periods) DTM_topics);
  let directory := ["Topics_CSVs"; "topics_words_time"] in
  ensure_dir directory;;
  for_ (enumerate topics_words_time) (λ idf,
    let file_path :=
      join directory ["topic" +:+ pretty (Z.of_nat idf.1 + 1) +:+ "_words_time.csv"] in
    write_file file_path (FrameCsv idf.2)).

(** [DTM_upload(year_batches)].  [load] is [LdaSeqModel.load], which reads
    the file that [save] wrote. *)
Definition DTM_upload (load : FS → path → result SeqModel)
    (year_batches : list (list Z)) : M SeqModel :=
  seq_m ← (λ w, (load (fs w) ["LDAModels_Gensim"; "DTM_model.gensim"], w));
  export_topics seq_m year_batches;;
  mret seq_m.

(** [load] returns what [save] stored, and raises on a missing file. *)
Definition loads_saved (load : FS → path → result SeqModel) : Prop :=
  (∀ f p m, files f !! p = Some (SavedSeq m) → load f p = Ok m) ∧
  (∀ f p, files f !! p = None → ∃ e, load f p = Raise e).

(** The running best only grows: from a number to a number that is not
    below it. *)
Definition best_grows (b b' : pyfloat) : Prop :=
  match b, b' with
  | Fin x, Fin y => (x <= y)%Q
  | NaN, NaN => True
  | _, _ => False
  end.

(** The best-trial attributes are all unset, or all set and of one trial:
    a number above -1, the parameters, and the model fitted with them. *)
Definition best_consistent (o : LDA) : Prop :=
  no_best o ∨
  ∃ n a b m q,
    best_params o = Some (n, a, b) ∧ best_model o = Some m ∧
    LdaModel (corpus o) (dictionary o) n a b = Ok m ∧
    best_score o = Fin q ∧ (-1 < q)%Q.

(** The best-trial attributes and the log. *)
Definition search_state (o : LDA)
    : option (Z * density * density) * pyfloat * option Model
      * option (list TrialRecord) :=
  (best_params o, best_score o, best_model o, scores o).

(** In how many batches the document is counted. *)
Definition memberships (year_batches : list (list Z)) (item : list Z) : Z :=
  Z.of_nat (length (filter (λ batch, in_batch batch item = true) year_batches)).

(** The outcomes of the library calls that [export_topics] makes. *)
Definition exported (o : LDA) (seq_m : SeqModel) (year_batches : list (list Z))
    (frames : list Frame) : Prop :=
  ∃ n a b topics labels,
    best_params o = Some (n, a, b) ∧
    mapM (print_topic_times seq_m) (seqZ 0 n) = Ok topics ∧
    mapM period_label year_batches = Ok labels ∧
    mapM (λ topic, topic_time topic labels) topics = Ok frames.

(** The file system after the CSVs of [frames] are written. *)
Definition fs_export (frames : list Frame) (f : FS) : FS :=
  foldl (λ f idf, fs_write (topic_csv idf.1) (FrameCsv idf.2) f)
        (fs_ensure topics_directory f) (enumerate frames).

(** The file that [viz] writes. *)
Definition viz_html (model_type : string) : path :=
  join ["Plots"] ["lda_" +:+ model_type +:+ "_viz.html"].

Definition simple_topics_csv : path :=
  join ["Topics_CSVs"] ["Topics_from_simple_model.csv"].

Definition simple_model_file : path :=
  join ["LDAModels_Gensim"] ["MSc_LDA_simple.gensim"].

(** The rows that [simple_fit] writes. *)
Definition simple_topics_rows (topics : list (Z * string)) : list (list cell) :=
  [CStr "Topic N"; CStr "Words"] :: map (λ t, [CInt t.1; CStr t.2]) topics.

(** ** Kinds of methods *)

(** [c] keeps [P], whether it returns or raises. *)
Definition keeps {A} (P : World → Prop) (c : M A) : Prop :=
  ∀ w, P w → P (c w).2.

(** [c] never changes the state. *)
Definition reads_only {A} (c : M A) : Prop :=
  ∀ w, (c w).2 = w.

(** The model asked of [viz] is there. *)
Definition viz_model (o : LDA) (model_type : string) (m : Model) : Prop :=
  (model_type = "best" ∧ best_model o = Some m) ∨
  (model_type = "simple" ∧ simple_model o = Some m).

(** The state of [DTM] once the sequential model is saved. *)
Definition model_saved (w : World) (seq_m : SeqModel) : World :=
  {| self := self w;
     fs := fs_write dtm_model_file (SavedSeq seq_m)
             (fs_ensure ["LDAModels_Gensim"] (fs w)) |}.

End LDA_upload.

(** ** A small library to run the methods on *)

Module Toy.

(** A coherence that depends on the number of topics only. *)
Definition score (n : Z) : pyfloat :=
  match n with
  | 2 => Fin (4 # 10)
  | 3 => Fin (6 # 10)
  | 4 => Fin (6 # 10)
  | 5 => NaN
  | _ => Fin (1 # 10)
  end.

Definition lib : Library := {|
  Corpus := unit;
  Dictionary := unit;
  Texts := unit;
  Model := Z * density * density;
  SeqModel := list Z * Z;
  Vis := Z;
  Frame := list string;
  LdaModel := λ _ _ n a b,
    if decide (0 < n) then Ok (n, a, b)
    else Raise (LibraryError "num_topics must be positive");
  get_coherence := λ m _ _ _, Ok (score m.1.1);
  log_perplexity := λ _ _, Ok (Fin (- (7 # 1)));
  print_topics := λ m, (λ i, (i, "words")) <$> seqZ 0 m.1.1;
  LdaSeqModel := λ _ _ ts n _ _,
    match ts with
    | Some l => Ok (l, n)
    | None => Raise (LibraryError "time_slice")
    end;
  print_topic_times := λ sm _, Ok ((λ _, [("word", Fin 1)]) <$> sm.1);
  topic_time := λ _ periods, Ok periods;
  enable_notebook := Ok tt;
  prepare := λ m _ _, Ok m.1.1
|}.

Definition tenth : density := DNum (1 # 10).

Definition fresh (dates : list (list Z)) : World (H := lib) :=
  {| self := __init__ (H := lib) tt tt tt dates; fs := fs_empty |}.

Definition model3 : Model (Library := lib) := (3, tenth, tenth).

(** The state after a first search, which selects [n = 3]. *)
Definition searched : World (H := lib) :=
  (grid_search (H := lib) [2; 3; 4] [tenth] [tenth] (fresh [])).2.

(** Unpickling the file that [save] wrote. *)
Definition load (f : FS (H := lib)) (p : path) : result (SeqModel (Library := lib)) :=
  match files f !! p with
  | Some (SavedSeq m) => Ok m
  | Some _ => Raise (LibraryError "could not unpickle")
  | None => Raise (LibraryError "No such file or directory")
  end.

Definition two_batches : list (list Z) := [[2000; 2001]; [2002; 2003]].

(** The state after a search and [time_slicer], ready for [DTM]. *)
Definition sliced : World (H := lib) :=
  (time_slicer (H := lib) two_batches
     (grid_search (H := lib) [2; 3; 4] [tenth] [tenth]
        (fresh [[2000]; [2000]; [2002]; [2005]])).2).2.

(** The sequential model that [DTM] builds on [sliced]. *)
Definition seq3 : SeqModel (Library := lib) := ([2; 1], 3).

Definition labels2 : list string := ["2000-2001"; "2002-2003"].

(** The frames of the three topics. *)
Definition frames3 : list (Frame (Library := lib)) := [labels2; labels2; labels2].

(** The state after [DTM], and a new object on the same disk. *)
Definition exported_world : World (H := lib) := (DTM (H := lib) two_batches sliced).2.

Definition restarted : World (H := lib) :=
  {| self := __init__ (H := lib) tt tt tt []; fs := fs exported_world |}.

(** The same library outside a notebook: [enable_notebook] raises. *)
Definition headless : Library := {|
  Corpus := unit;
  Dictionary := unit;
  Texts := unit;
  Model := Z * density * density;
  SeqModel := list Z * Z;
  Vis := Z;
  Frame := list string;
  LdaModel := λ _ _ n a b,
    if decide (0 < n) then Ok (n, a, b)
    else Raise (LibraryError "num_topics must be positive");
  get_coherence := λ m _ _ _, Ok (score m.1.1);
  log_perplexity := λ _ _, Ok (Fin (- (7 # 1)));
  print_topics := λ m, (λ i, (i, "words")) <$> seqZ 0 m.1.1;
  LdaSeqModel := λ _ _ ts n _ _,
    match ts with
    | Some l => Ok (l, n)
    | None => Raise (LibraryError "time_slice")
    end;
  print_topic_times := λ sm _, Ok ((λ _, [("word", Fin 1)]) <$> sm.1);
  topic_time := λ _ periods, Ok periods;
  enable_notebook := Raise (LibraryError "not in a notebook");
  prepare := λ m _ _, Ok m.1.1
|}.

Definition headless_model3 : Model (Library := headless) := (3, tenth, tenth).

(** A search with the library outside a notebook. *)
Definition headless_searched : World (H := headless) :=
  (grid_search (H := headless) [2; 3; 4] [tenth] [tenth]
     {| self := __init__ (H := headless) tt tt tt []; fs := fs_empty |}).2.

(** The state after a simple fit and a search. *)
Definition fitted : World (H := lib) :=
  (grid_search (H := lib) [2; 3; 4] [tenth] [tenth]
     (simple_fit (H := lib) 2 tenth tenth (fresh [])).2).2.

End Toy.

(** * Properties *)

Section Proofs.
Context `{Library}.

(** ** Floats *)

Lemma Qltb_lt (a b : Q) : Qltb a b = true ↔ (a < b)%Q.
Proof.
  unfold Qltb. rewrite negb_true_iff, <- not_true_iff_false, Qle_bool_iff.
  split; [apply Qnot_le_lt | apply Qlt_not_le].
Qed.

Lemma py_gt_lt (x y : pyfloat) : py_gt x y = true ↔ pf_lt y x.
Proof.
  destruct x, y; simpl; try (split; [discriminate | tauto]). apply Qltb_lt.
Qed.

Lemma pf_lt_le (x y : pyfloat) : pf_lt x y → pf_le x y.
Proof. destruct x, y; simpl; auto using Qlt_le_weak. Qed.

Lemma pf_le_lt_trans (x y z : pyfloat) : pf_le x y → pf_lt y z → pf_lt x z.
Proof. destruct x, y, z; simpl; try tauto. apply Qle_lt_trans. Qed.

Lemma pf_lt_irrefl (x : pyfloat) : ¬ pf_lt x x.
Proof. destruct x; simpl; [apply Qlt_irrefl | tauto]. Qed.

(** ** Running a method *)

Ltac mrun :=
  repeat (unfold mbind, mret, M_bind, M_ret, M_bind_def, M_ret_def, call, attr,
                 assign, raise, path_exists, makedirs, write_file; simpl).

Lemma bind_run {A B} (c : M A) (k : A → M B) (w w' : World) (a : A) :
  c w = (Ok a, w') → (c ≫= k) w = k a w'.
Proof. intros Hc. mrun. by rewrite Hc. Qed.

Lemma ensure_dir_run (p : path) (w : World) :
  ensure_dir p w = (Ok tt, {| self := self w; fs := fs_ensure p (fs w) |}).
Proof.
  unfold ensure_dir, fs_ensure. mrun.
  destruct (fs_exists p (fs w)); simpl; [by destruct w | done].
Qed.

(** ** Loops *)

Lemma for_ext {A} (l : list A) (f g : A → M unit) :
  (∀ x w, f x w = g x w) → ∀ w, for_ l f w = for_ l g w.
Proof.
  intros Hfg. induction l as [|x l IH]; intros w; [done|].
  simpl. mrun. rewrite Hfg. destruct (g x w) as [[[]|e] w']; [apply IH | done].
Qed.

Lemma for_app {A} (l1 l2 : list A) (f : A → M unit) (w : World) :
  for_ (l1 ++ l2) f w = (for_ l1 f;; for_ l2 f) w.
Proof.
  revert w. induction l1 as [|x l1 IH]; intros w; [done|].
  simpl. mrun. destruct (f x w) as [[[]|e] w']; [|done].
  rewrite IH. by mrun.
Qed.

Lemma for_flatten {A B} (l : list A) (g : A → list B) (f : B → M unit) (w : World) :
  for_ (l ≫= g) f w = for_ l (λ x, for_ (g x) f) w.
Proof.
  revert w. induction l as [|x l IH]; intros w; [done|].
  rewrite bind_cons, for_app. simpl. mrun.
  destruct (for_ (g x) f w) as [[[]|e] w']; [apply IH | done].
Qed.

Lemma for_singleton {A} (x : A) (f : A → M unit) (w : World) :
  for_ [x] f w = f x w.
Proof. simpl. mrun. by destruct (f x w) as [[[]|e] w']. Qed.

(** The three nested loops are one loop over [grid]. *)
Lemma loops_grid (ns : list Z) (alphas betas : list density) (w : World) :
  for_ ns (λ n, for_ alphas (λ alpha, for_ betas (λ beta, grid_cell n alpha beta))) w
  = for_ (grid ns alphas betas) cell_of w.
Proof.
  unfold grid. rewrite for_flatten. apply for_ext. intros n w1.
  rewrite for_flatten. apply for_ext. intros a w2.
  rewrite for_flatten. apply for_ext. intros b w3.
  by rewrite for_singleton.
Qed.

Lemma elem_of_grid (ns : list Z) (alphas betas : list density) n a b :
  (n, a, b) ∈ grid ns alphas betas ↔ n ∈ ns ∧ a ∈ alphas ∧ b ∈ betas.
Proof.
  unfold grid. rewrite list_elem_of_bind. split.
  - intros (n' & Hin & Hn). apply list_elem_of_bind in Hin as (a' & Hin & Ha).
    apply list_elem_of_bind in Hin as (b' & Hin & Hb).
    apply list_elem_of_singleton in Hin. by simplify_eq.
  - intros (Hn & Ha & Hb). exists n. split; [|done].
    apply list_elem_of_bind. exists a. split; [|done].
    apply list_elem_of_bind. exists b. split; [|done].
    by apply list_elem_of_singleton.
Qed.

(** ** One cell of the grid *)

Lemma run_trial_frame (o o' : LDA) n a b :
  corpus o' = corpus o → dictionary o' = dictionary o → texts o' = texts o →
  run_trial o' n a b = run_trial o n a b.
Proof. unfold run_trial. by intros -> -> ->. Qed.

Lemma run_trial_inv (o : LDA) n a b r m :
  run_trial o n a b = Ok (r, m) →
  params r = (n, a, b) ∧ LdaModel (corpus o) (dictionary o) n a b = Ok m ∧
  get_coherence m (texts o) (corpus o) (dictionary o) = Ok (coherence_score r) ∧
  log_perplexity m (corpus o) = Ok (perplexity_score r).
Proof.
  unfold run_trial, mbind, result_bind, rbind.
  destruct (LdaModel _ _ _ _ _) as [m'|] eqn:Hm; [|done].
  destruct (get_coherence _ _ _ _) as [c|] eqn:Hc; [|done].
  destruct (log_perplexity _ _) as [p|] eqn:Hp; [|done].
  intros [= <- <-]. done.
Qed.

Lemma take_best_frame (r : TrialRecord) (m : Model) (o : LDA) :
  corpus (take_best r m o) = corpus o ∧ dictionary (take_best r m o) = dictionary o ∧
  texts (take_best r m o) = texts o ∧ dates (take_best r m o) = dates o ∧
  simple_model (take_best r m o) = simple_model o ∧
  time_slice (take_best r m o) = time_slice o ∧ scores (take_best r m o) = scores o.
Proof. unfold take_best. by destruct (py_gt _ _). Qed.

Lemma log_trial_frame (o : LDA) (rm : TrialRecord * Model) :
  corpus (log_trial o rm) = corpus o ∧ dictionary (log_trial o rm) = dictionary o ∧
  texts (log_trial o rm) = texts o ∧ dates (log_trial o rm) = dates o ∧
  simple_model (log_trial o rm) = simple_model o ∧
  time_slice (log_trial o rm) = time_slice o ∧
  scores (log_trial o rm) = Some (default [] (scores o) ++ [rm.1]).
Proof. unfold log_trial. by destruct (take_best_frame rm.1 rm.2 (set_scores (Some (default [] (scores o) ++ [rm.1])) o)) as (-> & -> & -> & -> & -> & -> & ->). Qed.

Lemma grid_cell_run (w : World) n a b rm log :
  run_trial (self w) n a b = Ok rm →
  scores (self w) = Some log →
  grid_cell n a b w = (Ok tt, {| self := log_trial (self w) rm; fs := fs w |}).
Proof.
  intros Hrun Hlog. destruct rm as [r m].
  apply run_trial_inv in Hrun as (Hp & Hm & Hc & Hperp).
  unfold grid_cell, get_coherence_score, scores_append. mrun.
  rewrite Hm. simpl. rewrite Hc. simpl. rewrite Hperp. simpl. rewrite Hlog. simpl.
  unfold log_trial, take_best. simpl. rewrite Hlog. simpl.
  destruct r as [n' a' b' c p]. simpl in *. injection Hp as -> -> ->.
  by destruct (py_gt c (best_score (self w))).
Qed.

Lemma foldl_log_trial_scores (o : LDA) (rms : list (TrialRecord * Model)) log :
  scores o = Some log → scores (foldl log_trial o rms) = Some (log ++ rms.*1).
Proof.
  revert o log. induction rms as [|rm rms IH]; intros o log Hlog; simpl.
  - by rewrite app_nil_r.
  - rewrite (IH _ (log ++ [rm.1])).
    + by rewrite <- app_assoc.
    + destruct (log_trial_frame o rm) as (_ & _ & _ & _ & _ & _ & ->).
      by rewrite Hlog.
Qed.

Lemma for_cells_frame (o : LDA) (ts : list (Z * density * density)) rms :
  trials o ts rms →
  ∀ (w : World) log,
    corpus (self w) = corpus o → dictionary (self w) = dictionary o →
    texts (self w) = texts o → scores (self w) = Some log →
    for_ ts cell_of w = (Ok tt, {| self := foldl log_trial (self w) rms; fs := fs w |}).
Proof.
  unfold trials.
  induction 1 as [|t rm ts rms Ht Hts IH]; intros w log Hc Hd Hx Hlog.
  - by destruct w.
  - simpl. unfold cell_of at 1.
    erewrite bind_run; last first.
    { eapply grid_cell_run; [|done]. rewrite <- Ht. by apply run_trial_frame. }
    destruct (log_trial_frame (self w) rm) as (Hc' & Hd' & Hx' & _ & _ & _ & Hs).
    erewrite IH; [done | | | | done]; simpl; congruence.
Qed.

Lemma for_cells (ts : list (Z * density * density)) rms (w : World) log :
  trials (self w) ts rms →
  scores (self w) = Some log →
  for_ ts cell_of w = (Ok tt, {| self := foldl log_trial (self w) rms; fs := fs w |}).
Proof. intros Hts Hlog. by eapply for_cells_frame. Qed.

(** [grid_search] when every cell runs: the attributes are folded over the
    outcomes and the log is written to [scores_from_search.csv]. *)
Lemma grid_search_run (ns : list Z) (alphas betas : list density) rms (w : World) :
  trials (self w) (grid ns alphas betas) rms →
  grid_search ns alphas betas w =
    (Ok tt, {| self := foldl log_trial (set_scores (Some []) (self w)) rms;
               fs := fs_write scores_csv (CsvFile (scores_rows rms.*1))
                       (fs_ensure ["Topics_CSVs"] (fs w)) |}).
Proof.
  intros Hts. unfold grid_search.
  erewrite bind_run; [|by unfold assign].
  erewrite bind_run; [|rewrite loops_grid; by eapply (for_cells _ rms _ [])].
  erewrite bind_run; [|by unfold attr].
  erewrite bind_run; [|by apply ensure_dir_run].
  simpl. rewrite (foldl_log_trial_scores _ rms []); [|done]. done.
Qed.

Lemma trials_exist (o : LDA) (ts : list (Z * density * density))
    (P : TrialRecord * Model → Prop) :
  (∀ t, t ∈ ts → ∃ rm, run_trial o t.1.1 t.1.2 t.2 = Ok rm ∧ P rm) →
  ∃ rms, trials o ts rms ∧ Forall P rms.
Proof.
  unfold trials. induction ts as [|t ts IH]; intros Hall.
  - exists []. by split.
  - destruct (Hall t) as (rm & Hrm & HP); [by left|].
    destruct IH as (rms & Hrms & HPs); [intros t' Ht'; apply Hall; by right|].
    exists (rm :: rms). split; by constructor.
Qed.

(** ** The running best *)

Lemma first_max_fin (hist : list TrialRecord) i r :
  first_max hist i r → ∃ q, coherence_score r = Fin q.
Proof.
  intros (Hi & Hle & _). specialize (Hle i r Hi).
  destruct (coherence_score r) as [q|]; [by exists q | done].
Qed.

Lemma take_best_no (r : TrialRecord) (m : Model) (o : LDA) :
  ¬ pf_lt (best_score o) (coherence_score r) → take_best r m o = o.
Proof.
  intros Hn. unfold take_best.
  destruct (py_gt _ _) eqn:Hgt; [|done]. by apply py_gt_lt in Hgt.
Qed.

Lemma take_best_yes (r : TrialRecord) (m : Model) (o : LDA) :
  pf_lt (best_score o) (coherence_score r) →
  take_best r m o =
    set_best_model (Some m)
      (set_best_params (Some (params r)) (set_best_score (coherence_score r) o)).
Proof.
  intros Hlt. unfold take_best. apply py_gt_lt in Hlt. by rewrite Hlt.
Qed.

(** One more record keeps the invariant, and from then on something is
    selected. *)
Lemma best_inv_step (hist : list TrialRecord) (o : LDA) r m q :
  best_inv hist o →
  coherence_score r = Fin q → (-1 < q)%Q →
  LdaModel (corpus o) (dictionary o) (n_topics r) (alpha r) (beta r) = Ok m →
  best_of (hist ++ [r]) (log_trial o (r, m)).
Proof.
  intros Hinv Hq Hpos Hm. unfold log_trial. simpl.
  set (o1 := set_scores _ o).
  assert (Hnew : (hist ++ [r]) !! length hist = Some r).
  { rewrite lookup_app_r, Nat.sub_diag; [done | lia]. }
  destruct Hinv as [[-> (Hs & Hp & Hb)] | (i & r0 & m0 & Hmax & Hs & Hp & Hb & Hm0)].
  - rewrite take_best_yes; [|subst o1; simpl; by rewrite Hs, Hq].
    exists 0%nat, r, m. repeat split; simpl; try done.
    + intros [|j] r'; [|done]. intros [= <-]. rewrite Hq. simpl. apply Qle_refl.
    + intros j r' Hj. lia.
  - destruct (first_max_fin _ _ _ Hmax) as [q0 Hq0].
    destruct Hmax as (Hi & Hle & Hlt).
    destruct (Qlt_le_dec q0 q) as [Hlt0 | Hge].
    + rewrite take_best_yes; [|subst o1; simpl; by rewrite Hs, Hq0, Hq].
      exists (length hist), r, m. repeat split; simpl; try done.
      * intros j r' Hj. apply lookup_app_Some in Hj as [Hj | [_ Hj]].
        -- apply pf_lt_le. eapply pf_le_lt_trans; [by eapply Hle|].
           by rewrite Hq0, Hq.
        -- apply list_lookup_singleton_Some in Hj as [_ <-].
           rewrite Hq. simpl. apply Qle_refl.
      * intros j r' Hj Hr'. rewrite lookup_app_l in Hr' by done.
        eapply pf_le_lt_trans; [by eapply Hle|]. by rewrite Hq0, Hq.
    + rewrite take_best_no; last first.
      { subst o1. simpl. rewrite Hs, Hq0, Hq. simpl. by apply Qle_not_lt. }
      exists i, r0, m0. repeat split; simpl; try done.
      * apply lookup_app_l_Some. done.
      * intros j r' Hj. apply lookup_app_Some in Hj as [Hj | [_ Hj]].
        -- by eapply Hle.
        -- apply list_lookup_singleton_Some in Hj as [_ <-].
           by rewrite Hq0, Hq.
      * intros j r' Hj Hr'. apply lookup_lt_Some in Hi.
        rewrite lookup_app_l in Hr' by lia. by eapply Hlt.
Qed.

Lemma best_inv_fold (rms : list (TrialRecord * Model)) :
  ∀ (hist : list TrialRecord) (o : LDA),
    best_inv hist o →
    Forall (λ rm, ∃ q, coherence_score rm.1 = Fin q ∧ (-1 < q)%Q ∧
                       LdaModel (corpus o) (dictionary o) (n_topics rm.1)
                                (alpha rm.1) (beta rm.1) = Ok rm.2) rms →
    best_inv (hist ++ rms.*1) (foldl log_trial o rms).
Proof.
  induction rms as [|[r m] rms IH]; intros hist o Hinv Hall; simpl.
  - by rewrite app_nil_r.
  - apply Forall_cons in Hall as [(q & Hq & Hpos & Hm) Hall].
    rewrite cons_middle, app_assoc. apply IH.
    + right. by eapply best_inv_step.
    + destruct (log_trial_frame o (r, m)) as (-> & -> & _). done.
Qed.

(** Records below the running best leave the best-trial attributes alone. *)
Lemma below_best_fold (rms : list (TrialRecord * Model)) :
  ∀ o : LDA,
    Forall (λ rm, pf_lt (coherence_score rm.1) (best_score o)) rms →
    best_score (foldl log_trial o rms) = best_score o ∧
    best_params (foldl log_trial o rms) = best_params o ∧
    best_model (foldl log_trial o rms) = best_model o.
Proof.
  induction rms as [|[r m] rms IH]; intros o Hall; [done|]. simpl.
  apply Forall_cons in Hall as [Hr Hall]. simpl in Hr.
  assert (Hstep : log_trial o (r, m) = set_scores (Some (default [] (scores o) ++ [r])) o).
  { unfold log_trial. simpl. apply take_best_no. simpl. intros Hlt.
    eapply pf_lt_irrefl, pf_le_lt_trans; [by apply pf_lt_le|done]. }
  rewrite Hstep. destruct (IH (set_scores (Some (default [] (scores o) ++ [r])) o)) as (-> & -> & ->); done.
Qed.

(** ** The order of the cells *)

Lemma length_bind_uniform {A B} (f : A → list B) (m : nat) (l : list A) :
  (∀ x, length (f x) = m) → length (l ≫= f) = (length l * m)%nat.
Proof.
  intros Hf. induction l as [|x l IH]; [done|].
  rewrite bind_cons, length_app, Hf, IH. simpl. lia.
Qed.

Lemma lookup_bind_uniform {A B} (f : A → list B) (m : nat) (l : list A) i k x y :
  (∀ x, length (f x) = m) →
  l !! i = Some x → f x !! k = Some y → (l ≫= f) !! (i * m + k)%nat = Some y.
Proof.
  intros Hf. revert i. induction l as [|x0 l IH]; intros i Hi Hk; [done|].
  rewrite bind_cons. destruct i as [|i]; simpl in *.
  - injection Hi as ->. by apply lookup_app_l_Some.
  - rewrite lookup_app_r; rewrite Hf; [|lia].
    replace (m + i * m + k - m)%nat with (i * m + k)%nat by lia. by apply IH.
Qed.

Lemma length_grid (ns : list Z) (alphas betas : list density) :
  length (grid ns alphas betas) = (length ns * length alphas * length betas)%nat.
Proof.
  unfold grid.
  rewrite (length_bind_uniform _ (length alphas * length betas)); [lia|].
  intros n. rewrite (length_bind_uniform _ (length betas)); [lia|].
  intros a. rewrite (length_bind_uniform _ 1); [lia | done].
Qed.

Lemma lookup_grid (ns : list Z) (alphas betas : list density) i j k n a b :
  ns !! i = Some n → alphas !! j = Some a → betas !! k = Some b →
  grid ns alphas betas !! ((i * length alphas + j) * length betas + k)%nat
  = Some (n, a, b).
Proof.
  intros Hi Hj Hk. unfold grid.
  replace ((i * length alphas + j) * length betas + k)%nat
    with (i * (length alphas * length betas) + (j * length betas + (k * 1 + 0)))%nat
    by lia.
  eapply lookup_bind_uniform; [|done|].
  { intros n'. rewrite (length_bind_uniform _ (length betas)); [lia|].
    intros a'. by rewrite (length_bind_uniform _ 1); [lia|]. }
  eapply lookup_bind_uniform; [|done|].
  { intros a'. by rewrite (length_bind_uniform _ 1); [lia|]. }
  eapply lookup_bind_uniform; [done|done|done].
Qed.

Lemma grid_empty (ns : list Z) (alphas betas : list density) :
  ns = [] ∨ alphas = [] ∨ betas = [] → grid ns alphas betas = [].
Proof.
  intros Hnil. apply length_zero_iff_nil. rewrite length_grid.
  destruct Hnil as [-> | [-> | ->]]; simpl; lia.
Qed.

Lemma trials_params (o : LDA) ts rms :
  trials o ts rms → params <$> rms.*1 = ts.
Proof.
  unfold trials. induction 1 as [|[[n a] b] [r m] ts rms Ht Hts IH]; [done|].
  simpl in *. apply run_trial_inv in Ht as (Hp & _). by f_equal.
Qed.

(** ** [grid_search] *)

Lemma init_no_best c d t ds : no_best (__init__ c d t ds).
Proof. done. Qed.

Lemma init_best_inv c d t ds : best_inv [] (__init__ c d t ds).
Proof. by left. Qed.

Lemma grid_nonempty (ns : list Z) (alphas betas : list density) :
  ns ≠ [] → alphas ≠ [] → betas ≠ [] → grid ns alphas betas ≠ [].
Proof.
  intros Hn Ha Hb Hnil. apply (f_equal length) in Hnil.
  rewrite length_grid in Hnil.
  destruct ns, alphas, betas; simpl in *; done.
Qed.

(** Every search keeps the invariant, over the records of the earlier
    searches followed by its own. *)
Lemma grid_search_best_inv (hist : list TrialRecord) (w : World)
    (ns : list Z) (alphas betas : list density) :
  best_inv hist (self w) →
  (∀ n a b, n ∈ ns → a ∈ alphas → b ∈ betas →
     ∃ r m q, run_trial (self w) n a b = Ok (r, m) ∧
              coherence_score r = Fin q ∧ (-1 < q)%Q) →
  ∃ w' log,
    grid_search ns alphas betas w = (Ok tt, w') ∧
    scores (self w') = Some log ∧
    params <$> log = grid ns alphas betas ∧
    best_inv (hist ++ log) (self w').
Proof.
  intros Hinv Hall.
  destruct (trials_exist (self w) (grid ns alphas betas)
              (λ rm, ∃ q, coherence_score rm.1 = Fin q ∧ (-1 < q)%Q))
    as (rms & Hts & Hvalid).
  { intros [[n a] b] Ht. apply elem_of_grid in Ht as (Hin & Hia & Hib).
    destruct (Hall n a b Hin Hia Hib) as (r & m & q & Hrun & Hq & Hpos).
    exists (r, m). eauto. }
  eexists _, rms.*1. split; [by apply grid_search_run|]. simpl.
  split; [by apply (foldl_log_trial_scores _ rms [])|].
  split; [by eapply trials_params|].
  apply best_inv_fold; [done|]. unfold trials in Hts.
  induction Hts as [|[[n a] b] [r m] ts rms Ht Hts IH]; [done|].
  apply Forall_cons in Hvalid as [(q & Hq & Hpos) Hvalid].
  constructor; [|by apply IH]. simpl in *.
  apply run_trial_inv in Ht as (Hp & Hm & _). injection Hp as -> -> ->. eauto.
Qed.

(** C1: when the best-trial attributes are those of the first maximum of
    the records [hist] of the searches so far (or nothing is selected and
    there is no record yet, as on a new object), a search over three
    non-empty axes whose coherence scores are numbers above -1 ends with a
    non-empty log, and the best-trial attributes are then those of the first
    record, in the order of production, whose coherence score is the maximum
    of all records so far: [best_score] is its score, [best_params] its
    parameters and [best_model] the model fitted with them; every earlier
    record is strictly below it and no record is above it. *)
Theorem grid_search_best_is_first_max (hist : list TrialRecord) (w : World)
    (ns : list Z) (alphas betas : list density) :
  best_inv hist (self w) →
  ns ≠ [] → alphas ≠ [] → betas ≠ [] →
  (∀ n a b, n ∈ ns → a ∈ alphas → b ∈ betas →
     ∃ r m q, run_trial (self w) n a b = Ok (r, m) ∧
              coherence_score r = Fin q ∧ (-1 < q)%Q) →
  ∃ w' log,
    grid_search ns alphas betas w = (Ok tt, w') ∧
    scores (self w') = Some log ∧ log ≠ [] ∧
    best_of (hist ++ log) (self w').
Proof.
  intros Hinv Hn Ha Hb Hall.
  destruct (grid_search_best_inv hist w ns alphas betas Hinv Hall)
    as (w' & log & Hrun & Hlog & Hparams & Hbest).
  assert (Hne : log ≠ []).
  { intros ->. by apply (grid_nonempty ns alphas betas). }
  exists w', log. split_and!; [done..|].
  destruct Hbest as [[Hnil _]|Hbest]; [|done].
  by apply app_eq_nil in Hnil as [_ ?].
Qed.

(** C3: when every fit of the grid succeeds, [grid_search] appends exactly
    one record per combination, with [n_topics] as the outer loop, [alphas]
    as the middle loop and [betas] as the inner loop: the log has
    [len(n_topics) * len(alphas) * len(betas)] records and the record at
    position [(i * len(alphas) + j) * len(betas) + k] is the outcome of the
    cell [(n_topics[i], alphas[j], betas[k])]. *)
Theorem grid_search_order (w : World) (ns : list Z) (alphas betas : list density) :
  (∀ n a b, n ∈ ns → a ∈ alphas → b ∈ betas →
     ∃ rm, run_trial (self w) n a b = Ok rm) →
  ∃ w' log,
    grid_search ns alphas betas w = (Ok tt, w') ∧
    scores (self w') = Some log ∧
    params <$> log = grid ns alphas betas ∧
    length log = (length ns * length alphas * length betas)%nat ∧
    ∀ i j k n a b,
      ns !! i = Some n → alphas !! j = Some a → betas !! k = Some b →
      ∃ r m, log !! ((i * length alphas + j) * length betas + k)%nat = Some r ∧
             run_trial (self w) n a b = Ok (r, m) ∧ params r = (n, a, b).
Proof.
  intros Hall.
  destruct (trials_exist (self w) (grid ns alphas betas) (λ _, True))
    as (rms & Hts & _).
  { intros [[n a] b] Ht. apply elem_of_grid in Ht as (Hin & Hia & Hib).
    destruct (Hall n a b Hin Hia Hib) as (rm & Hrun). eauto. }
  eexists _, rms.*1. split; [by apply grid_search_run|]. simpl.
  split; [by apply (foldl_log_trial_scores _ rms [])|].
  split; [by eapply trials_params|].
  split.
  { rewrite <- length_grid, <- (trials_params _ _ _ Hts), !length_fmap. done. }
  intros i j k n a b Hi Hj Hk.
  pose proof (lookup_grid ns alphas betas i j k n a b Hi Hj Hk) as Hcell.
  destruct (Forall2_lookup_l _ _ _ _ _ Hts Hcell) as ([r m] & Hrm & Hrun).
  simpl in Hrun. exists r, m. split; [|split; [done|]].
  - rewrite list_lookup_fmap, Hrm. done.
  - by apply run_trial_inv in Hrun as (? & _).
Qed.

(** C4: when one of the three axes is empty, [grid_search] runs no trial:
    it returns with an empty log and with the best-trial attributes it
    started with, which on a new object are [best_score = -1],
    [best_params = None] and [best_model = None]. *)
Theorem grid_search_empty_axis (w : World) (ns : list Z) (alphas betas : list density) :
  ns = [] ∨ alphas = [] ∨ betas = [] →
  no_best (self w) →
  ∃ w',
    grid_search ns alphas betas w = (Ok tt, w') ∧
    scores (self w') = Some [] ∧
    best_score (self w') = Fin (-1) ∧
    best_params (self w') = None ∧
    best_model (self w') = None.
Proof.
  intros Hnil (Hs & Hp & Hm).
  eexists. split.
  { apply (grid_search_run _ _ _ []). rewrite grid_empty by done. constructor. }
  done.
Qed.

(** C10: a search on an object that already has a best trial starts a new
    log and keeps the best-trial attributes; when every trial of this search
    scores strictly below the best score it started with, the attributes
    are unchanged at the end, the log holds the records of this search only,
    none of them has the best score, and [scores_from_search.csv] holds
    exactly the rows of this log. *)
Theorem grid_search_stale_best (w : World) (ns : list Z) (alphas betas : list density) :
  (∀ n a b, n ∈ ns → a ∈ alphas → b ∈ betas →
     ∃ r m, run_trial (self w) n a b = Ok (r, m) ∧
            pf_lt (coherence_score r) (best_score (self w))) →
  ∃ w' log,
    grid_search ns alphas betas w = (Ok tt, w') ∧
    scores (self w') = Some log ∧
    params <$> log = grid ns alphas betas ∧
    best_score (self w') = best_score (self w) ∧
    best_params (self w') = best_params (self w) ∧
    best_model (self w') = best_model (self w) ∧
    (∀ r, r ∈ log → pf_lt (coherence_score r) (best_score (self w')) ∧
                    coherence_score r ≠ best_score (self w')) ∧
    files (fs w') !! scores_csv = Some (CsvFile (scores_rows log)).
Proof.
  intros Hall.
  destruct (trials_exist (self w) (grid ns alphas betas)
              (λ rm, pf_lt (coherence_score rm.1) (best_score (self w))))
    as (rms & Hts & Hbelow).
  { intros [[n a] b] Ht. apply elem_of_grid in Ht as (Hin & Hia & Hib).
    destruct (Hall n a b Hin Hia Hib) as (r & m & Hrun & Hlt).
    exists (r, m). eauto. }
  eexists _, rms.*1. split; [by apply grid_search_run|]. simpl.
  split; [by apply (foldl_log_trial_scores _ rms [])|].
  split; [by eapply trials_params|].
  destruct (below_best_fold rms (set_scores (Some []) (self w)) Hbelow)
    as (Hs & Hp & Hm).
  rewrite Hs, Hp, Hm. simpl. split_and!; [done..| |apply lookup_insert_eq].
  intros r Hr. apply list_elem_of_fmap in Hr as (rm & -> & Hrm).
  pose proof (proj1 (Forall_forall _ _) Hbelow rm Hrm) as Hlt. split; [done|].
  intros Heq. apply (pf_lt_irrefl (best_score (self w))). by rewrite <- Heq at 1.
Qed.

(** ** dict *)

Section dict_facts.
Context {K V : Type} `{EqDecision K}.
Implicit Types (d : Dict.t K V) (k : K) (v : V).

Lemma get_set_eq d k v : Dict.get k (Dict.set k v d) = Some v.
Proof.
  induction d as [|[k' v'] d IH]; simpl.
  - by rewrite decide_True.
  - destruct (decide (k = k')) as [->|Hne]; simpl.
    + by rewrite decide_True.
    + by rewrite decide_False.
Qed.

Lemma get_set_ne d k k' v : k' ≠ k → Dict.get k' (Dict.set k v d) = Dict.get k' d.
Proof.
  intros Hne. induction d as [|[k0 v0] d IH]; simpl.
  - by rewrite decide_False.
  - destruct (decide (k = k0)) as [->|Hne0]; simpl.
    + by rewrite !decide_False.
    + destruct (decide (k' = k0)); [done | apply IH].
Qed.

Lemma keys_set d k v : is_Some (Dict.get k d) → (Dict.set k v d).*1 = d.*1.
Proof.
  induction d as [|[k' v'] d IH]; simpl; intros Hk.
  - by destruct Hk.
  - destruct (decide (k = k')) as [->|Hne]; simpl; [done|]. f_equal. by apply IH.
Qed.

Lemma set_fresh d k v : Dict.get k d = None → Dict.set k v d = d ++ [(k, v)].
Proof.
  induction d as [|[k' v'] d IH]; simpl; [done|].
  destruct (decide (k = k')); [done|]. intros Hk. by rewrite IH.
Qed.

Lemma mem_get d k : Dict.mem k d = true ↔ is_Some (Dict.get k d).
Proof.
  induction d as [|[k' v'] d IH]; simpl.
  - split; [done | by intros []].
  - destruct (decide (k = k')); [|done]. split; eauto.
Qed.

Lemma get_None_keys d k : Dict.get k d = None ↔ k ∉ d.*1.
Proof.
  induction d as [|[k' v'] d IH]; simpl.
  - split; [intros _; apply not_elem_of_nil | done].
  - rewrite not_elem_of_cons. destruct (decide (k = k')); [|tauto].
    split; [done | tauto].
Qed.
End dict_facts.

(** With the keys [off, off + 1, ...], [values] is [get] by position. *)
Lemma values_get_seq {V} (d : Dict.t nat V) (off n i : nat) :
  d.*1 = seq off n → (i < n)%nat → Dict.values d !! i = Dict.get (off + i)%nat d.
Proof.
  revert off n i. induction d as [|[k v] d IH]; intros off n i Hkeys Hi.
  - destruct n; [lia | done].
  - destruct n as [|n]; [lia|]. simpl in Hkeys. injection Hkeys as -> Hkeys.
    destruct i as [|i]; simpl.
    + by rewrite Nat.add_0_r, decide_True.
    + rewrite decide_False by lia.
      replace (off + S i)%nat with (S off + i)%nat by lia.
      apply (IH (S off) n i); [done | lia].
Qed.

Lemma rfold_app {A B} (body : B → A → result B) (acc : B) (l1 l2 : list A) :
  rfold body acc (l1 ++ l2) = acc' ← rfold body acc l1; rfold body acc' l2.
Proof.
  revert acc. induction l1 as [|x l1 IH]; intros acc; simpl; [done|].
  unfold mbind, result_bind, rbind in *. destruct (body acc x); [apply IH | done].
Qed.

Lemma enumerate_snoc {A} (l : list A) (x : A) :
  enumerate (l ++ [x]) = enumerate l ++ [(length l, x)].
Proof. unfold enumerate. rewrite imap_app. simpl. by rewrite Nat.add_0_r. Qed.

(** ** [time_slicer] *)

Lemma batch_total_set (batch : list Z) (d : Dict.t Z Z) (k v : Z) :
  batch_total batch (Dict.set k v d)
  = batch_total batch d
    + (if bool_decide (k ∈ batch) then v - default 0 (Dict.get k d) else 0).
Proof.
  unfold batch_total, Dict.items, sum_Z.
  induction d as [|[k0 v0] d IH]; cbn [Dict.set Dict.get].
  - cbn. case_bool_decide; lia.
  - destruct (decide (k = k0)) as [->|Hne]; rewrite !fmap_cons; cbn [foldr fst snd].
    + change (default 0 (Some v0)) with v0. case_bool_decide; lia.
    + rewrite IH. lia.
Qed.

Lemma batch_total_cons (batch : list Z) (k v : Z) (d : Dict.t Z Z) :
  batch_total batch ((k, v) :: d)
  = (if bool_decide (k ∈ batch) then v else 0) + batch_total batch d.
Proof. done. Qed.

Lemma count_year_total (yc : Dict.t Z Z) (year : Z) (rest : list Z) :
  ∃ yc', count_year yc (year :: rest) = Ok yc' ∧
         ∀ batch, batch_total batch yc'
                  = batch_total batch yc + (if bool_decide (year ∈ batch) then 1 else 0).
Proof.
  unfold count_year. simpl. unfold mbind, result_bind. simpl.
  destruct (Dict.mem year yc) eqn:Hmem.
  - apply mem_get in Hmem as [v Hv]. unfold iadd, getitem. rewrite Hv. simpl.
    eexists. split; [done|]. intros batch. rewrite batch_total_set, Hv. simpl.
    case_bool_decide; lia.
  - assert (Dict.get year yc = None) as Hv.
    { destruct (Dict.get year yc) eqn:Hg; [|done].
      assert (Dict.mem year yc = true) by (apply mem_get; eauto). congruence. }
    eexists. split; [done|]. intros batch. rewrite batch_total_set, Hv. simpl.
    case_bool_decide; lia.
Qed.

Lemma batch_count_cons (item : list Z) (ds : list (list Z)) (batch : list Z) :
  batch_count (item :: ds) batch
  = (if in_batch batch item then 1 else 0) + batch_count ds batch.
Proof.
  unfold batch_count. rewrite filter_cons.
  destruct (in_batch batch item); simpl; lia.
Qed.

Lemma count_years_total (ds : list (list Z)) :
  Forall (λ item, item ≠ []) ds →
  ∀ yc, ∃ yc', rfold count_year yc ds = Ok yc' ∧
               ∀ batch, batch_total batch yc' = batch_total batch yc + batch_count ds batch.
Proof.
  induction 1 as [|item ds Hitem Hds IH]; intros yc.
  - exists yc. split; [done|]. intros batch. unfold batch_count. simpl. lia.
  - destruct item as [|year rest]; [done|].
    destruct (count_year_total yc year rest) as (yc1 & Hrun1 & Htot1).
    destruct (IH yc1) as (yc' & Hrun & Htot).
    exists yc'. split.
    + simpl. rewrite Hrun1. exact Hrun.
    + intros batch. rewrite Htot, Htot1, batch_count_cons.
      unfold in_batch. simpl. lia.
Qed.

Lemma init_counts {A} (l : list A) :
  foldl (λ bc ib, Dict.set (ib.1 : nat) 0 bc) Dict.empty (enumerate l)
  = (λ i, (i, 0)) <$> seq 0 (length l).
Proof.
  induction l as [|x l IH] using rev_ind; [done|].
  rewrite enumerate_snoc, foldl_app, IH, length_app. simpl.
  rewrite Nat.add_1_r, seq_S, fmap_app. simpl.
  apply set_fresh, get_None_keys.
  rewrite <- list_fmap_compose, list_fmap_id. rewrite elem_of_seq. lia.
Qed.

Lemma get_keys_seq (d : Dict.t nat Z) (n i : nat) :
  d.*1 = seq 0 n → (i < n)%nat → is_Some (Dict.get i d).
Proof.
  intros Hkeys Hi. destruct (Dict.get i d) eqn:Hg; [eauto|].
  apply get_None_keys in Hg. rewrite Hkeys, elem_of_seq in Hg. lia.
Qed.

Lemma add_to_batches_run (n : nat) (key value : Z) (l : list (list Z)) :
  ∀ bc : Dict.t nat Z,
    bc.*1 = seq 0 n → (length l ≤ n)%nat →
    ∃ bc', add_to_batches l bc (key, value) = Ok bc' ∧
           bc'.*1 = seq 0 n ∧
           (∀ i batch, l !! i = Some batch →
              Dict.get i bc'
              = (λ v, if bool_decide (key ∈ batch) then v + value else v)
                  <$> Dict.get i bc) ∧
           (∀ i, (length l ≤ i)%nat → Dict.get i bc' = Dict.get i bc).
Proof.
  unfold add_to_batches.
  induction l as [|x l IH] using rev_ind; intros bc Hkeys Hlen.
  - exists bc. split_and!; [done..| |done]. intros i batch Hi. done.
  - rewrite length_app in Hlen. simpl in Hlen.
    destruct (IH bc Hkeys) as (bc1 & Hrun1 & Hkeys1 & Hin1 & Hout1); [lia|].
    rewrite enumerate_snoc, rfold_app, Hrun1. simpl.
    unfold mbind at 1, result_bind at 1. simpl.
    destruct (get_keys_seq bc n (length l) Hkeys) as [v0 Hv0]; [lia|].
    assert (Hv1 : Dict.get (length l) bc1 = Some v0) by (by rewrite Hout1).
    case_bool_decide as Hkey.
    + unfold iadd, getitem. rewrite Hv1. simpl.
      eexists. split; [done|]. split_and!.
      * by rewrite keys_set.
      * intros i batch Hi. apply lookup_app_Some in Hi as [Hi | [Hge Hi]].
        -- pose proof (lookup_lt_Some _ _ _ Hi).
           rewrite get_set_ne by lia. by apply Hin1.
        -- apply list_lookup_singleton_Some in Hi as [Hi <-].
           assert (i = length l) as -> by lia.
           rewrite get_set_eq, Hv0. simpl. by rewrite bool_decide_true.
      * intros i Hi. rewrite length_app in Hi. simpl in Hi.
        rewrite get_set_ne by lia. apply Hout1. lia.
    + exists bc1. split; [done|]. split_and!; [done| |].
      * intros i batch Hi. apply lookup_app_Some in Hi as [Hi | [Hge Hi]].
        -- by apply Hin1.
        -- apply list_lookup_singleton_Some in Hi as [Hi <-].
           assert (i = length l) as -> by lia.
           rewrite Hv1, Hv0. simpl. by rewrite bool_decide_false.
      * intros i Hi. rewrite length_app in Hi. simpl in Hi. apply Hout1. lia.
Qed.

Lemma fill_batches_run (batches : list (list Z)) (items : list (Z * Z)) :
  ∀ bc : Dict.t nat Z,
    bc.*1 = seq 0 (length batches) →
    ∃ bc', rfold (add_to_batches batches) bc items = Ok bc' ∧
           bc'.*1 = seq 0 (length batches) ∧
           ∀ i batch, batches !! i = Some batch →
             Dict.get i bc' = (λ v, v + batch_total batch items) <$> Dict.get i bc.
Proof.
  induction items as [|[key value] items IH]; intros bc Hkeys.
  - exists bc. split_and!; [done..|]. intros i batch Hi.
    unfold batch_total. simpl. destruct (Dict.get i bc); simpl; [f_equal; lia | done].
  - destruct (add_to_batches_run (length batches) key value batches bc Hkeys)
      as (bc1 & Hrun1 & Hkeys1 & Hin1 & _); [done|].
    destruct (IH bc1 Hkeys1) as (bc' & Hrun & Hkeys' & Hin).
    exists bc'. split_and!; [|done|].
    + cbn [rfold]. rewrite Hrun1. exact Hrun.
    + intros i batch Hi. rewrite (Hin i batch Hi), (Hin1 i batch Hi).
      rewrite batch_total_cons.
      destruct (Dict.get i bc); simpl; [f_equal|done].
      case_bool_decide; lia.
Qed.

(** [time_slicer] on dates that all have a year. *)
Lemma time_slicer_run (w : World) (year_batches : list (list Z)) :
  Forall (λ item, item ≠ []) (dates (self w)) →
  time_slicer year_batches w =
    (Ok (batch_count (dates (self w)) <$> year_batches),
     {| self := set_time_slice (Some (batch_count (dates (self w)) <$> year_batches))
                               (self w);
        fs := fs w |}).
Proof.
  intros Hdates.
  destruct (count_years_total _ Hdates Dict.empty) as (yc & Hyc & Htot).
  destruct (fill_batches_run year_batches (Dict.items yc)
              ((λ i, (i, 0)) <$> seq 0 (length year_batches)))
    as (bc & Hbc & Hkeys & Hget).
  { by rewrite <- list_fmap_compose, list_fmap_id. }
  assert (Hvals : Dict.values bc = batch_count (dates (self w)) <$> year_batches).
  { apply list_eq. intros i. rewrite list_lookup_fmap.
    destruct (year_batches !! i) as [batch|] eqn:Hi; simpl.
    - pose proof (lookup_lt_Some _ _ _ Hi) as Hlt.
      rewrite (values_get_seq bc 0 (length year_batches)) by done. simpl.
      rewrite (Hget i batch Hi).
      assert (Dict.get i ((λ i, (i, 0)) <$> seq 0 (length year_batches)) = Some 0)
        as ->.
      { rewrite <- (values_get_seq _ 0 (length year_batches) i);
          [|by rewrite <- list_fmap_compose, list_fmap_id | done].
        unfold Dict.values. rewrite <- list_fmap_compose, list_lookup_fmap.
        by rewrite lookup_seq_lt. }
      simpl. f_equal. unfold Dict.items. rewrite Htot. unfold batch_total. simpl. lia.
    - apply lookup_ge_None in Hi. apply lookup_ge_None.
      unfold Dict.values. rewrite length_fmap, <- (length_fmap fst), Hkeys, length_seq.
      done. }
  unfold time_slicer. mrun. rewrite Hyc. simpl. rewrite init_counts, Hbc. simpl.
  by rewrite Hvals.
Qed.

Lemma matched_in_batch (batches : list (list Z)) (batch item : list Z) :
  batch ∈ batches → in_batch batch item = true → matched batches item = true.
Proof.
  intros Hb Hin. unfold matched. apply existsb_exists.
  exists batch. split; [by apply list_elem_of_In | done].
Qed.

Lemma batch_count_matched (batches : list (list Z)) (ds : list (list Z)) batch :
  batch ∈ batches →
  batch_count (filter (λ item, matched batches item = true) ds) batch
  = batch_count ds batch.
Proof.
  intros Hb. unfold batch_count. rewrite list_filter_filter_l; [done|].
  intros item Hin. by eapply matched_in_batch.
Qed.

Lemma batch_count_year (ds : list (list Z)) (batch : list Z) (year : Z) :
  year ∈ batch → batch_count ds [year] ≤ batch_count ds batch.
Proof.
  intros Hy. induction ds as [|item ds IH].
  - done.
  - rewrite !batch_count_cons. unfold in_batch.
    destruct (year_of item) as [y|]; [|lia].
    case_bool_decide as Hone; [|case_bool_decide; lia].
    apply list_elem_of_singleton in Hone as ->. rewrite bool_decide_true by done. lia.
Qed.

(** C2: on dates that all have a year, [time_slicer] returns and caches a
    vector with one entry per batch, in the order of [year_batches]; entry
    [i] is the number of documents whose year is in batch [i], so that the
    documents whose year is in no batch can be removed from the input without
    changing any entry.  For the batches [[2000, 2001], [2002, 2003]] and
    documents of the years 2000, 2000, 2002 and 2005 the vector is
    [[2, 1]]. *)
Theorem time_slicer_counts (w : World) (year_batches : list (list Z)) :
  Forall (λ item, item ≠ []) (dates (self w)) →
  ∃ ts w',
    time_slicer year_batches w = (Ok ts, w') ∧
    time_slice (self w') = Some ts ∧
    length ts = length year_batches ∧
    (∀ i batch, year_batches !! i = Some batch →
       ts !! i = Some (batch_count (dates (self w)) batch)) ∧
    ts = batch_count (filter (λ item, matched year_batches item = true)
                             (dates (self w))) <$> year_batches ∧
    (year_batches = [[2000; 2001]; [2002; 2003]] →
     year_of <$> dates (self w) = [Some 2000; Some 2000; Some 2002; Some 2005] →
     ts = [2; 1]).
Proof.
  intros Hdates. eexists _, _. split; [by apply time_slicer_run|]. simpl.
  split_and!.
  - done.
  - by rewrite length_fmap.
  - intros i batch Hi. by rewrite list_lookup_fmap, Hi.
  - apply list_fmap_ext. intros i batch Hi. symmetry.
    apply batch_count_matched. by eapply list_elem_of_lookup_2.
  - intros -> Hyears. destruct (dates (self w)) as [|d1 [|d2 [|d3 [|d4 [|d5 ds]]]]];
      try done.
    injection Hyears as H1 H2 H3 H4. unfold batch_count, in_batch. simpl.
    rewrite !filter_cons, filter_nil, H1, H2, H3, H4. done.
Qed.

(** C9: the documents of a year are counted into every batch that contains
    that year: each such entry is at least the number of documents of the
    year.  With the overlapping batches [[2000, 2001], [2001, 2002]] and a
    single document of 2001 the vector is [[1, 1]], whose sum 2 exceeds the
    number of documents. *)
Theorem time_slicer_overlap :
  (∀ (w : World) (year_batches : list (list Z)) (year : Z),
     Forall (λ item, item ≠ []) (dates (self w)) →
     ∃ ts w',
       time_slicer year_batches w = (Ok ts, w') ∧
       ∀ i batch, year_batches !! i = Some batch → year ∈ batch →
         ∃ v, ts !! i = Some v ∧ batch_count (dates (self w)) [year] ≤ v) ∧
  (∀ c d t f,
     ∃ ts w',
       time_slicer [[2000; 2001]; [2001; 2002]]
                   {| self := __init__ c d t [[2001]]; fs := f |} = (Ok ts, w') ∧
       ts = [1; 1] ∧
       Z.of_nat (length (dates (__init__ c d t [[2001]]))) < sum_Z ts).
Proof.
  split.
  - intros w year_batches year Hdates.
    eexists _, _. split; [by apply time_slicer_run|].
    intros i batch Hi Hy. eexists. split.
    + by rewrite list_lookup_fmap, Hi.
    + by apply batch_count_year.
  - intros c d t f. eexists _, _. split.
    + apply time_slicer_run. simpl. by repeat constructor.
    + done.
Qed.

(** ** The file system *)

Lemma fs_write_id (p : path) (c : content) (f : FS) :
  files f !! p = Some c → fs_write p c f = f.
Proof.
  intros Hp. destruct f as [ds fl]. unfold fs_write. simpl in *.
  by rewrite insert_id.
Qed.

Lemma fs_ensure_id (p : path) (f : FS) :
  fs_exists p f = true → fs_ensure p f = f.
Proof. unfold fs_ensure. by intros ->. Qed.

Lemma prefixes_self (p : path) : p ≠ [] → p ∈ prefixes p.
Proof.
  induction p as [|c q IH]; [done|]. intros _. simpl.
  destruct q as [|c' q']; [by left|]. right.
  apply list_elem_of_fmap. exists (c' :: q'). split; [done|]. by apply IH.
Qed.

Lemma fs_exists_ensure (p : path) (f : FS) :
  p ≠ [] → fs_exists p (fs_ensure p f) = true.
Proof.
  intros Hp. unfold fs_ensure. destruct (fs_exists p f) eqn:Hex; [done|].
  unfold fs_exists, fs_makedirs. simpl. apply orb_true_iff. left.
  apply bool_decide_eq_true. apply elem_of_union_l, elem_of_list_to_set.
  by apply prefixes_self.
Qed.

Lemma fs_exists_write (p q : path) (c : content) (f : FS) :
  fs_exists p f = true → fs_exists p (fs_write q c f) = true.
Proof.
  unfold fs_exists, fs_write. simpl. rewrite !orb_true_iff, !bool_decide_eq_true.
  intros [Hd | Hf]; [by left|]. right.
  destruct (decide (q = p)) as [->|Hne].
  - rewrite lookup_insert_eq. eauto.
  - by rewrite lookup_insert_ne.
Qed.

Lemma fs_exists_ensure_other (p q : path) (f : FS) :
  fs_exists p f = true → fs_exists p (fs_ensure q f) = true.
Proof.
  unfold fs_ensure. destruct (fs_exists q f); [done|].
  unfold fs_exists, fs_makedirs. simpl. rewrite !orb_true_iff, !bool_decide_eq_true.
  intros [Hd | Hf]; [left | by right]. by apply elem_of_union_r.
Qed.

(** ** [build_best_model], [viz] and [DTM] *)

Lemma get_coherence_score_run (w : World) n a b m c :
  LdaModel (corpus (self w)) (dictionary (self w)) n a b = Ok m →
  get_coherence m (texts (self w)) (corpus (self w)) (dictionary (self w)) = Ok c →
  get_coherence_score n a b w = (Ok (c, m), w).
Proof.
  intros Hm Hc. unfold get_coherence_score. mrun. rewrite Hm. simpl. by rewrite Hc.
Qed.

(** [build_best_model] with parameters on which the fit succeeds. *)
Lemma build_best_model_run (w : World) n a b m c :
  best_params (self w) = Some (n, a, b) →
  LdaModel (corpus (self w)) (dictionary (self w)) n a b = Ok m →
  get_coherence m (texts (self w)) (corpus (self w)) (dictionary (self w)) = Ok c →
  build_best_model w =
    (Ok m,
     {| self := self w;
        fs := fs_write best_topics_csv (CsvFile (best_topics_rows (print_topics m)))
                (fs_ensure ["Topics_CSVs"]
                   (fs_write best_model_file (SavedLda m)
                      (fs_ensure ["LDAModels_Gensim"] (fs w)))) |}).
Proof.
  intros Hp Hm Hc. unfold build_best_model.
  erewrite bind_run; [|by unfold attr]. rewrite Hp. cbv beta iota.
  erewrite bind_run; [|by apply get_coherence_score_run]. cbv beta iota.
  erewrite bind_run; [|by apply ensure_dir_run].
  erewrite bind_run; [|by unfold write_file].
  erewrite bind_run; [|by apply ensure_dir_run].
  erewrite bind_run; [|by unfold write_file].
  done.
Qed.

(** C5: when [best_params] is [None], as it is before any grid search has
    selected a trial, [DTM] raises at [self.best_params[0]], before the
    sequential model is built, and leaves the object and the file system as
    they were: no model file and no per-topic CSV is written.  [DTM] has no
    check of its own: what it raises is the [TypeError] of subscripting
    [None], not an exception with a message of its own such as
    [build_best_model] and [viz] raise in the same situation. *)
Theorem DTM_before_grid_search (w : World) (year_batches : list (list Z)) :
  best_params (self w) = None →
  DTM year_batches w
  = (Raise (TypeError "'NoneType' object is not subscriptable"), w).
Proof.
  intros Hp. unfold DTM, subscript. mrun. rewrite Hp. simpl. by destruct w.
Qed.

(** C6: when [best_params] is [None], [build_best_model] raises its
    exception [No parameters found ...] and leaves the object and the file
    system as they were; when [best_params] is [(n, alpha, beta)] and the fit
    succeeds, it returns the model fitted with exactly [n], [alpha] and
    [beta], saves that model and writes its topics to [best_topics.csv],
    without changing the object. *)
Theorem build_best_model_spec (w : World) :
  (best_params (self w) = None →
   build_best_model w = (Raise (Exception no_params), w)) ∧
  (∀ n a b m c,
     best_params (self w) = Some (n, a, b) →
     LdaModel (corpus (self w)) (dictionary (self w)) n a b = Ok m →
     get_coherence m (texts (self w)) (corpus (self w)) (dictionary (self w)) = Ok c →
     ∃ w',
       build_best_model w = (Ok m, w') ∧
       self w' = self w ∧
       files (fs w') !! best_model_file = Some (SavedLda m) ∧
       files (fs w') !! best_topics_csv
       = Some (CsvFile (best_topics_rows (print_topics m)))).
Proof.
  split.
  - intros Hp. unfold build_best_model. mrun. rewrite Hp. by destruct w.
  - intros n a b m c Hp Hm Hc. eexists. split; [by eapply build_best_model_run|].
    simpl. split_and!; [done| |by rewrite lookup_insert_eq].
    rewrite lookup_insert_ne by done.
    unfold fs_ensure. destruct (fs_exists _ _); simpl; by rewrite lookup_insert_eq.
Qed.

(** C7: with the same best parameters, on which the fit succeeds, a second
    call of [build_best_model] right after the first returns the same model
    and leaves the whole state as the first call left it; [best_topics.csv]
    has the same rows, those of the topics of that model, after both
    calls. *)
Theorem build_best_model_twice (w : World) n a b m c :
  best_params (self w) = Some (n, a, b) →
  LdaModel (corpus (self w)) (dictionary (self w)) n a b = Ok m →
  get_coherence m (texts (self w)) (corpus (self w)) (dictionary (self w)) = Ok c →
  ∃ w1 w2,
    build_best_model w = (Ok m, w1) ∧
    build_best_model w1 = (Ok m, w2) ∧
    best_params (self w1) = best_params (self w) ∧
    files (fs w1) !! best_topics_csv
    = Some (CsvFile (best_topics_rows (print_topics m))) ∧
    files (fs w2) !! best_topics_csv = files (fs w1) !! best_topics_csv ∧
    w2 = w1.
Proof.
  intros Hp Hm Hc.
  pose proof (build_best_model_run w n a b m c Hp Hm Hc) as Hrun1.
  set (f1 := fs_write best_model_file (SavedLda m)
               (fs_ensure ["LDAModels_Gensim"] (fs w))) in Hrun1.
  set (f2 := fs_write best_topics_csv _ (fs_ensure ["Topics_CSVs"] f1)) in Hrun1.
  assert (Hcsv : files f2 !! best_topics_csv
                 = Some (CsvFile (best_topics_rows (print_topics m)))).
  { subst f2. simpl. by rewrite lookup_insert_eq. }
  assert (Hmodel : files f2 !! best_model_file = Some (SavedLda m)).
  { subst f2 f1. simpl. rewrite lookup_insert_ne by done.
    unfold fs_ensure at 1. destruct (fs_exists _ _); simpl; by rewrite lookup_insert_eq. }
  assert (Hd1 : fs_exists ["LDAModels_Gensim"] f2 = true).
  { subst f2 f1. apply fs_exists_write, fs_exists_ensure_other, fs_exists_write.
    by apply fs_exists_ensure. }
  assert (Hd2 : fs_exists ["Topics_CSVs"] f2 = true).
  { subst f2. apply fs_exists_write. by apply fs_exists_ensure. }
  assert (Hrun2 : build_best_model {| self := self w; fs := f2 |}
                  = (Ok m, {| self := self w; fs := f2 |})).
  { rewrite (build_best_model_run _ n a b m c); [|done..]. simpl.
    rewrite (fs_ensure_id ["LDAModels_Gensim"] f2 Hd1).
    rewrite (fs_write_id best_model_file _ f2 Hmodel).
    rewrite (fs_ensure_id ["Topics_CSVs"] f2 Hd2).
    by rewrite (fs_write_id best_topics_csv _ f2 Hcsv). }
  eexists _, _. split; [exact Hrun1|]. split; [exact Hrun2|]. done.
Qed.

(** C8: [viz] raises [ValueError] for every [model_type] other than
    ['best'] and ['simple'], and raises an exception when the model asked for
    is [None] ([best_model] before a grid search has selected a trial,
    [simple_model] before [simple_fit]); in all three cases the object and
    the file system are left as they were, so no HTML file is written. *)
Theorem viz_errors (w : World) :
  (∀ model_type, model_type ≠ "best" → model_type ≠ "simple" →
     viz model_type w = (Raise (ValueError viz_bad_type), w)) ∧
  (best_model (self w) = None →
     viz "best" w
     = (Raise (Exception "No best model found. Run grid_search first."), w)) ∧
  (simple_model (self w) = None →
     viz "simple" w
     = (Raise (Exception "No simple model found. Run simple_fit() first."), w)).
Proof.
  split_and!.
  - intros model_type Hb Hs. unfold viz. mrun.
    rewrite decide_False by done. rewrite decide_False by done. by destruct w.
  - intros Hm. unfold viz. mrun. rewrite Hm. by destruct w.
  - intros Hm. unfold viz. mrun. rewrite Hm. by destruct w.
Qed.

End Proofs.

(** * The properties on the small library *)

Ltac cases_in H :=
  repeat (apply elem_of_cons in H as [->|H]); try (by apply elem_of_nil in H).

Lemma grid_search_best_is_first_max_witness :
  ∃ w' log,
    grid_search (H := Toy.lib) [2; 3; 4] [Toy.tenth] [Toy.tenth] (Toy.fresh [])
    = (Ok tt, w') ∧
    scores (self w') = Some log ∧ log ≠ [] ∧ best_of ([] ++ log) (self w').
Proof.
  apply (grid_search_best_is_first_max (H := Toy.lib) [] (Toy.fresh [])
           [2; 3; 4] [Toy.tenth] [Toy.tenth]); try done.
  - apply init_best_inv.
  - intros n a b Hn Ha Hb. cases_in Hn; cases_in Ha; cases_in Hb;
      eexists _, _, _; (split; [reflexivity|]); (split; [reflexivity|]); reflexivity.
Defined.

Lemma time_slicer_counts_witness :
  ∃ ts w',
    time_slicer (H := Toy.lib) [[2000; 2001]; [2002; 2003]]
                (Toy.fresh [[2000]; [2000]; [2002]; [2005]]) = (Ok ts, w') ∧
    time_slice (self w') = Some ts ∧ ts = [2; 1].
Proof.
  destruct (time_slicer_counts (H := Toy.lib)
              (Toy.fresh [[2000]; [2000]; [2002]; [2005]])
              [[2000; 2001]; [2002; 2003]])
    as (ts & w' & Hrun & Hslice & _ & _ & _ & Hex).
  - simpl. by repeat constructor.
  - exists ts, w'. split; [done|]. split; [done|]. by apply Hex.
Defined.

Lemma grid_search_order_witness :
  ∃ w' log,
    grid_search (H := Toy.lib) [2; 3] [Toy.tenth] [Toy.tenth] (Toy.fresh [])
    = (Ok tt, w') ∧
    scores (self w') = Some log ∧
    params <$> log = [(2, Toy.tenth, Toy.tenth); (3, Toy.tenth, Toy.tenth)] ∧
    length log = 2%nat.
Proof.
  destruct (grid_search_order (H := Toy.lib) (Toy.fresh [])
              [2; 3] [Toy.tenth] [Toy.tenth])
    as (w' & log & Hrun & Hlog & Hparams & Hlen & _).
  - intros n a b Hn Ha Hb. cases_in Hn; cases_in Ha; cases_in Hb;
      eexists; reflexivity.
  - by exists w', log.
Defined.

Lemma grid_search_empty_axis_witness :
  ∃ w',
    grid_search (H := Toy.lib) [2; 3] [] [Toy.tenth] (Toy.fresh []) = (Ok tt, w') ∧
    scores (self w') = Some [] ∧
    best_score (self w') = Fin (-1) ∧
    best_params (self w') = None ∧
    best_model (self w') = None.
Proof.
  apply (grid_search_empty_axis (H := Toy.lib) (Toy.fresh []) [2; 3] [] [Toy.tenth]).
  - right. by left.
  - apply init_no_best.
Defined.

Lemma DTM_before_grid_search_witness :
  DTM (H := Toy.lib) [[2000; 2001]] (Toy.fresh [[2000]])
  = (Raise (TypeError "'NoneType' object is not subscriptable"), Toy.fresh [[2000]]).
Proof.
  apply (DTM_before_grid_search (H := Toy.lib) (Toy.fresh [[2000]])). reflexivity.
Defined.

Lemma build_best_model_spec_witness :
  build_best_model (H := Toy.lib) (Toy.fresh [])
  = (Raise (Exception no_params), Toy.fresh []) ∧
  ∃ w',
    build_best_model (H := Toy.lib) Toy.searched = (Ok Toy.model3, w') ∧
    self w' = self Toy.searched ∧
    files (fs w') !! best_model_file = Some (SavedLda Toy.model3) ∧
    files (fs w') !! best_topics_csv
    = Some (CsvFile (best_topics_rows
                       (print_topics Toy.model3))).
Proof.
  split.
  - apply (proj1 (build_best_model_spec (H := Toy.lib) (Toy.fresh []))). reflexivity.
  - apply (proj2 (build_best_model_spec (H := Toy.lib) Toy.searched)
             3 Toy.tenth Toy.tenth Toy.model3 (Fin (6 # 10)));
      reflexivity.
Defined.

Lemma build_best_model_twice_witness :
  ∃ w1 w2,
    build_best_model (H := Toy.lib) Toy.searched = (Ok Toy.model3, w1) ∧
    build_best_model (H := Toy.lib) w1 = (Ok Toy.model3, w2) ∧
    best_params (self w1) = best_params (self Toy.searched) ∧
    files (fs w1) !! best_topics_csv
    = Some (CsvFile (best_topics_rows
                       (print_topics Toy.model3))) ∧
    files (fs w2) !! best_topics_csv = files (fs w1) !! best_topics_csv ∧
    w2 = w1.
Proof.
  apply (build_best_model_twice (H := Toy.lib) Toy.searched
           3 Toy.tenth Toy.tenth Toy.model3 (Fin (6 # 10)));
    reflexivity.
Defined.

Lemma viz_errors_witness :
  viz (H := Toy.lib) "worst" (Toy.fresh [])
  = (Raise (ValueError viz_bad_type), Toy.fresh []) ∧
  viz (H := Toy.lib) "best" (Toy.fresh [])
  = (Raise (Exception "No best model found. Run grid_search first."), Toy.fresh []) ∧
  viz (H := Toy.lib) "simple" (Toy.fresh [])
  = (Raise (Exception "No simple model found. Run simple_fit() first."), Toy.fresh []).
Proof.
  destruct (viz_errors (H := Toy.lib) (Toy.fresh [])) as (Hother & Hbest & Hsimple).
  split; [|split].
  - apply Hother; discriminate.
  - apply Hbest. reflexivity.
  - apply Hsimple. reflexivity.
Defined.

Lemma time_slicer_overlap_witness :
  ∃ ts w',
    time_slicer (H := Toy.lib) [[2000; 2001]; [2001; 2002]] (Toy.fresh [[2001]])
    = (Ok ts, w') ∧
    ∀ i batch, [[2000; 2001]; [2001; 2002]] !! i = Some batch → 2001 ∈ batch →
      ∃ v, ts !! i = Some v ∧ batch_count [[2001]] [2001] ≤ v.
Proof.
  apply (proj1 (time_slicer_overlap (H := Toy.lib)) (Toy.fresh [[2001]])
           [[2000; 2001]; [2001; 2002]] 2001).
  simpl. by repeat constructor.
Defined.

Lemma grid_search_stale_best_witness :
  ∃ w' log,
    grid_search (H := Toy.lib) [2] [Toy.tenth] [Toy.tenth] Toy.searched = (Ok tt, w') ∧
    scores (self w') = Some log ∧
    params <$> log = grid [2] [Toy.tenth] [Toy.tenth] ∧
    best_score (self w') = best_score (self Toy.searched) ∧
    best_params (self w') = best_params (self Toy.searched) ∧
    best_model (self w') = best_model (self Toy.searched) ∧
    (∀ r, r ∈ log → pf_lt (coherence_score r) (best_score (self w')) ∧
                    coherence_score r ≠ best_score (self w')) ∧
    files (fs w') !! scores_csv = Some (CsvFile (scores_rows log)).
Proof.
  apply (grid_search_stale_best (H := Toy.lib) Toy.searched [2] [Toy.tenth] [Toy.tenth]).
  intros n a b Hn Ha Hb. cases_in Hn; cases_in Ha; cases_in Hb.
  eexists _, _. split; [reflexivity|]. reflexivity.
Defined.

(** ** Runs on the small library *)

(** A second search with lower scores: the best trial is still the first
    maximum of the records of both searches. *)
Example two_searches :
  ∃ w1 log1 w2 log2,
    grid_search (H := Toy.lib) [2; 3; 4] [Toy.tenth] [Toy.tenth] (Toy.fresh [])
    = (Ok tt, w1) ∧
    scores (self w1) = Some log1 ∧
    grid_search (H := Toy.lib) [2; 6] [Toy.tenth] [Toy.tenth] w1 = (Ok tt, w2) ∧
    scores (self w2) = Some log2 ∧
    best_inv (log1 ++ log2) (self w2) ∧
    best_params (self w2) = Some (3, Toy.tenth, Toy.tenth).
Proof.
  destruct (grid_search_best_inv (H := Toy.lib) [] (Toy.fresh [])
              [2; 3; 4] [Toy.tenth] [Toy.tenth])
    as (w1 & log1 & Hrun1 & Hlog1 & _ & Hinv1).
  { by left. }
  { intros n a b Hn Ha Hb. cases_in Hn; cases_in Ha; cases_in Hb;
      eexists _, _, _; (split; [reflexivity|]); (split; [reflexivity|]); reflexivity. }
  assert (Hw1 : w1 = Toy.searched).
  { unfold Toy.searched. by rewrite Hrun1. }
  destruct (grid_search_best_inv (H := Toy.lib) log1 w1
              [2; 6] [Toy.tenth] [Toy.tenth])
    as (w2 & log2 & Hrun2 & Hlog2 & _ & Hinv2).
  { done. }
  { rewrite Hw1. intros n a b Hn Ha Hb. cases_in Hn; cases_in Ha; cases_in Hb;
      eexists _, _, _; (split; [reflexivity|]); (split; [reflexivity|]); reflexivity. }
  exists w1, log1, w2, log2. split_and!; [done..|].
  subst w1. vm_compute in Hrun2. by injection Hrun2 as <-.
Qed.

(** A coherence that is [nan] is never above the running best: the trial is
    logged and nothing is selected. *)
Example nan_is_not_selected :
  let run :=
    grid_search (H := Toy.lib) [5] [Toy.tenth] [Toy.tenth] (Toy.fresh []) in
  run.1 = Ok tt ∧
  fmap (M := list) coherence_score <$> scores (self run.2) = Some [NaN] ∧
  best_params (self run.2) = None ∧ best_score (self run.2) = Fin (-1).
Proof. by vm_compute. Qed.

(** An exception of the library ends the search where it is raised: the
    remaining cells are not run and the log is not written. *)
Example library_failure_propagates :
  let run :=
    grid_search (H := Toy.lib) [0; 2] [Toy.tenth] [Toy.tenth] (Toy.fresh []) in
  run.1 = Raise (LibraryError "num_topics must be positive") ∧
  scores (self run.2) = Some [] ∧ files (fs run.2) !! scores_csv = None.
Proof. by vm_compute. Qed.

(** Search, slices, then the dynamic model: [DTM] saves the model and one
    CSV per topic. *)
Example DTM_after_search :
  let year_batches := [[2000; 2001]; [2002; 2003]] in
  let w0 := Toy.fresh [[2000]; [2000]; [2002]; [2005]] in
  let w1 := (grid_search (H := Toy.lib) [2; 3; 4] [Toy.tenth] [Toy.tenth] w0).2 in
  let w2 := (time_slicer (H := Toy.lib) year_batches w1).2 in
  let run := DTM (H := Toy.lib) year_batches w2 in
  let topic_csv (name : string) : path := ["Topics_CSVs"; "topics_words_time"; name] in
  run.1 = Ok tt ∧
  files (fs run.2) !! ["LDAModels_Gensim"; "DTM_model.gensim"]
  = Some (SavedSeq (H := Toy.lib) ([2; 1], 3)) ∧
  files (fs run.2) !! topic_csv "topic1_words_time.csv"
  = Some (FrameCsv (H := Toy.lib) ["2000-2001"; "2002-2003"]) ∧
  is_Some (files (fs run.2) !! topic_csv "topic2_words_time.csv") ∧
  is_Some (files (fs run.2) !! topic_csv "topic3_words_time.csv") ∧
  files (fs run.2) !! topic_csv "topic4_words_time.csv" = None ∧
  length (map_to_list (files (fs run.2))) = 5%nat.
Proof. vm_compute. split_and!; eauto. Qed.

(** * Further properties of the methods *)

Section MoreProofs.
Context `{Library}.

Ltac mred :=
  repeat (unfold mbind, mret, M_bind, M_ret, M_bind_def, M_ret_def, call, attr,
                 assign, raise, path_exists, makedirs, write_file; simpl).

(** ** What a method keeps *)

Lemma keeps_bind {A B} (P : World → Prop) (c : M A) (k : A → M B) :
  keeps P c → (∀ a, keeps P (k a)) → keeps P (c ≫= k).
Proof.
  intros Hc Hk w HP. specialize (Hc w HP). mred.
  destruct (c w) as [[a|e] w']; simpl in *; [by apply Hk | done].
Qed.

Lemma keeps_for {A} (P : World → Prop) (l : list A) (body : A → M unit) :
  (∀ x, keeps P (body x)) → keeps P (for_ l body).
Proof.
  intros Hbody. induction l as [|x l IH]; [by intros w|].
  simpl. apply keeps_bind; [apply Hbody | by intros _].
Qed.

Lemma keeps_reads_only {A} (P : World → Prop) (c : M A) :
  reads_only c → keeps P c.
Proof. intros Hc w HP. by rewrite Hc. Qed.

Lemma keeps_assign (Q : LDA → Prop) (upd : LDA → LDA) :
  (∀ o, Q o → Q (upd o)) → keeps (λ w, Q (self w)) (assign upd).
Proof. intros Hupd w HQ. by apply Hupd. Qed.

Lemma keeps_ensure_dir (Q : LDA → Prop) (p : path) :
  keeps (λ w, Q (self w)) (ensure_dir p).
Proof. intros w HQ. by rewrite ensure_dir_run. Qed.

Lemma keeps_write_file (Q : LDA → Prop) (p : path) (c : content) :
  keeps (λ w, Q (self w)) (write_file p c).
Proof. by intros w HQ. Qed.

Lemma reads_only_call {A} (r : result A) : reads_only (call r).
Proof. by intros w. Qed.

Lemma reads_only_attr {A} (field : LDA → A) : reads_only (attr field).
Proof. by intros w. Qed.

Lemma reads_only_raise {A} (e : exn) : reads_only (raise (A := A) e).
Proof. by intros w. Qed.

Lemma reads_only_ret {A} (a : A) : reads_only (mret a : M A).
Proof. by intros w. Qed.

Lemma reads_only_bind {A B} (c : M A) (k : A → M B) :
  reads_only c → (∀ a, reads_only (k a)) → reads_only (c ≫= k).
Proof.
  intros Hc Hk w. specialize (Hc w). mred.
  destruct (c w) as [[a|e] w']; simpl in *; subst; [apply Hk | done].
Qed.

Lemma reads_only_subscript {A} t (proj : Z * density * density → A) :
  reads_only (subscript t proj).
Proof. by destruct t. Qed.

Lemma reads_only_get_coherence_score n a b : reads_only (get_coherence_score n a b).
Proof.
  unfold get_coherence_score.
  repeat (apply reads_only_bind; [|intros ?]);
    auto using reads_only_attr, reads_only_call, reads_only_ret.
Qed.

Create HintDb reads.

Local Hint Resolve reads_only_attr reads_only_call reads_only_raise reads_only_ret
  reads_only_subscript reads_only_get_coherence_score : reads.

Lemma reads_only_viz_model (model_type : string) :
  reads_only
    (if decide (model_type = "best") then
       model ← attr best_model;
       match model with
       | None => raise (Exception "No best model found. Run grid_search first.")
       | Some m => mret m
       end
     else if decide (model_type = "simple") then
       model ← attr simple_model;
       match model with
       | None => raise (Exception "No simple model found. Run simple_fit() first.")
       | Some m => mret m
       end
     else raise (ValueError viz_bad_type)).
Proof.
  repeat case_decide; [| |by auto with reads];
    (apply reads_only_bind; [by auto with reads|]); intros [m|]; auto with reads.
Qed.

(** ** A library call that raises *)

(** X1: in [simple_fit] and in [viz] every call into the library comes
    before the first write.  When the fit, the coherence or the perplexity
    raises, [simple_fit] raises that exception, [simple_model] keeps its
    value and neither the topics nor the model are written; when
    [enable_notebook] or [prepare] raises, [viz] raises that exception and
    writes no HTML file and creates no [Plots] directory. *)
Theorem library_errors_before_writes (w : World) (e : exn) :
  (∀ n a b,
     LdaModel (corpus (self w)) (dictionary (self w)) n a b = Raise e ∨
     (∃ m, LdaModel (corpus (self w)) (dictionary (self w)) n a b = Ok m ∧
           (get_coherence m (texts (self w)) (corpus (self w)) (dictionary (self w))
            = Raise e ∨
            (∃ c, get_coherence m (texts (self w)) (corpus (self w))
                                (dictionary (self w)) = Ok c ∧
                  log_perplexity m (corpus (self w)) = Raise e))) →
     simple_fit n a b w = (Raise e, w)) ∧
  (∀ model_type m,
     viz_model (self w) model_type m →
     enable_notebook = Raise e ∨
     (enable_notebook = Ok tt ∧
      prepare m (corpus (self w)) (dictionary (self w)) = Raise e) →
     viz model_type w = (Raise e, w)).
Proof.
  split.
  - intros n a b. unfold simple_fit. mred.
    intros [Hm | (m & Hm & [Hc | (c & Hc & Hp)])]; rewrite Hm; simpl; [done| |];
      rewrite Hc; simpl; [done|]. by rewrite Hp.
  - intros model_type m Hsel Herr. unfold viz.
    erewrite bind_run; last first.
    { destruct Hsel as [[-> Hm]|[-> Hm]]; simpl; mred; rewrite Hm; done. }
    mred. destruct Herr as [-> | [-> Hprep]]; simpl; [by destruct w|].
    rewrite Hprep. by destruct w.
Qed.

(** ** Who assigns the best trial *)

Lemma keeps_load (P : World → Prop) (load : FS → path → result SeqModel) (p : path) :
  keeps P (λ w, (load (fs w) p, w)).
Proof. by intros w. Qed.

Section search_state_kept.
Variable st : option (Z * density * density) * pyfloat * option Model
              * option (list TrialRecord).

Ltac kept_step :=
  first
    [ apply (keeps_ensure_dir (λ o, search_state o = st))
    | apply (keeps_write_file (λ o, search_state o = st))
    | apply (keeps_assign (λ o, search_state o = st)); by intros o <-
    | apply keeps_reads_only; solve [auto with reads]
    | apply keeps_for; intros ?
    | apply keeps_bind; [|intros ?] ]; cbv zeta.

Lemma kept_simple_fit n a b : keeps (λ w, search_state (self w) = st) (simple_fit n a b).
Proof. unfold simple_fit. repeat kept_step. Qed.

Lemma kept_build_best_model : keeps (λ w, search_state (self w) = st) build_best_model.
Proof.
  unfold build_best_model. kept_step; [kept_step|].
  destruct a as [[[n a] b]|]; [|by kept_step].
  kept_step; [kept_step|]. destruct a0 as [c m]. repeat kept_step.
Qed.

Lemma kept_viz model_type : keeps (λ w, search_state (self w) = st) (viz model_type).
Proof.
  unfold viz. kept_step; [apply keeps_reads_only, reads_only_viz_model|].
  repeat kept_step.
Qed.

Lemma kept_time_slicer year_batches : keeps (λ w, search_state (self w) = st) (time_slicer year_batches).
Proof. unfold time_slicer. repeat kept_step. Qed.

Lemma kept_export_topics seq_m year_batches :
  keeps (λ w, search_state (self w) = st) (export_topics seq_m year_batches).
Proof. unfold export_topics. repeat kept_step. Qed.

Lemma kept_DTM year_batches : keeps (λ w, search_state (self w) = st) (DTM year_batches).
Proof. unfold DTM. repeat kept_step. Qed.

Lemma kept_DTM_upload load year_batches : keeps (λ w, search_state (self w) = st) (DTM_upload load year_batches).
Proof.
  unfold DTM_upload. kept_step; [apply keeps_load|].
  kept_step; [apply kept_export_topics | kept_step].
Qed.

End search_state_kept.

(** X2: only [grid_search] selects a trial: whether they return or raise,
    [simple_fit], [build_best_model], [viz], [time_slicer], [DTM] and
    [DTM_upload] leave [best_params], [best_score], [best_model] and the
    log [scores] as they found them. *)
Theorem only_grid_search_selects (w : World) :
  (∀ n a b, search_state (self (simple_fit n a b w).2) = search_state (self w)) ∧
  search_state (self (build_best_model w).2) = search_state (self w) ∧
  (∀ model_type, search_state (self (viz model_type w).2) = search_state (self w)) ∧
  (∀ year_batches,
     search_state (self (time_slicer year_batches w).2) = search_state (self w)) ∧
  (∀ year_batches, search_state (self (DTM year_batches w).2) = search_state (self w)) ∧
  (∀ load year_batches,
     search_state (self (DTM_upload load year_batches w).2) = search_state (self w)).
Proof.
  split_and!; intros.
  - by apply (kept_simple_fit (search_state (self w))).
  - by apply (kept_build_best_model (search_state (self w))).
  - by apply (kept_viz (search_state (self w))).
  - by apply (kept_time_slicer (search_state (self w))).
  - by apply (kept_DTM (search_state (self w))).
  - by apply (kept_DTM_upload (search_state (self w))).
Qed.

(** ** The best trial is consistent, whatever the library does *)

Lemma best_consistent_set_scores (v : option (list TrialRecord)) (o : LDA) :
  best_consistent o → best_consistent (set_scores v o).
Proof. done. Qed.

Lemma best_consistent_fin (o : LDA) :
  best_consistent o → ∃ q, best_score o = Fin q ∧ (-1 <= q)%Q.
Proof.
  intros [(Hs & _)|(n & a & b & m & q & _ & _ & _ & Hs & Hq)].
  - exists (-1)%Q. split; [done | apply Qle_refl].
  - exists q. split; [done | by apply Qlt_le_weak].
Qed.

Lemma keeps_consistent_grid_cell n a b :
  keeps (λ w, best_consistent (self w)) (grid_cell n a b).
Proof.
  intros w Hcons. unfold grid_cell, get_coherence_score, scores_append. mred.
  destruct (LdaModel _ _ _ _ _) as [m|e] eqn:Hm; simpl; [|done].
  destruct (get_coherence _ _ _ _) as [c|e] eqn:Hc; simpl; [|done].
  destruct (log_perplexity _ _) as [p|e] eqn:Hp; simpl; [|done].
  destruct (scores (self w)) as [log|] eqn:Hlog; simpl; [|done].
  destruct (py_gt c (best_score (self w))) eqn:Hgt; simpl; [|done].
  right. apply py_gt_lt in Hgt.
  destruct (best_consistent_fin _ Hcons) as (q0 & Hq0 & Hpos).
  rewrite Hq0 in Hgt. destruct c as [q|]; [|done]. simpl in Hgt.
  exists n, a, b, m, q. split_and!; [done..|]. by eapply Qle_lt_trans.
Qed.

(** X3: whatever the library returns or raises in a search ([nan], scores
    of any sign, an exception in the middle of the grid), the best-trial
    attributes stay consistent: either all three have the values of
    [__init__], or [best_score] is a number above -1, [best_params] is set
    and [best_model] is the model fitted with these parameters.  So
    [best_params] is [None] exactly when [best_model] is [None], and the
    checks of [build_best_model] and of [viz] agree. *)
Theorem grid_search_keeps_consistent (w : World) (ns : list Z)
    (alphas betas : list density) :
  best_consistent (self w) →
  best_consistent (self (grid_search ns alphas betas w).2) ∧
  (best_params (self (grid_search ns alphas betas w).2) = None ↔
   best_model (self (grid_search ns alphas betas w).2) = None).
Proof.
  intros Hcons.
  assert (Hafter : best_consistent (self (grid_search ns alphas betas w).2)).
  { revert w Hcons. change (keeps (λ w, best_consistent (self w))
                                  (grid_search ns alphas betas)).
    unfold grid_search.
    apply keeps_bind; [by apply (keeps_assign best_consistent)|]. intros _.
    apply keeps_bind.
    { do 3 (apply keeps_for; intros ?). apply keeps_consistent_grid_cell. }
    intros _. apply keeps_bind; [apply keeps_reads_only; auto with reads|].
    intros sc. cbv zeta.
    apply keeps_bind; [apply (keeps_ensure_dir best_consistent)|]. intros _.
    apply (keeps_write_file best_consistent). }
  split; [done|].
  destruct Hafter as [(_ & -> & ->)|(n & a & b & m & q & -> & -> & _)]; done.
Qed.

(** ** A search that is interrupted *)

Lemma bind_raises {A B} (c : M A) (k : A → M B) (w w' : World) (e : exn) :
  c w = (Raise e, w') → (c ≫= k) w = (Raise e, w').
Proof. intros Hc. mred. by rewrite Hc. Qed.

Lemma foldl_log_trial_frame (o : LDA) (rms : list (TrialRecord * Model)) :
  corpus (foldl log_trial o rms) = corpus o ∧
  dictionary (foldl log_trial o rms) = dictionary o ∧
  texts (foldl log_trial o rms) = texts o ∧ dates (foldl log_trial o rms) = dates o ∧
  simple_model (foldl log_trial o rms) = simple_model o ∧
  time_slice (foldl log_trial o rms) = time_slice o.
Proof.
  revert o. induction rms as [|rm rms IH]; intros o; [done|]. simpl.
  destruct (IH (log_trial o rm)) as (-> & -> & -> & -> & -> & ->).
  by destruct (log_trial_frame o rm) as (-> & -> & -> & -> & -> & -> & _).
Qed.

Lemma grid_cell_raise (w : World) n a b e :
  run_trial (self w) n a b = Raise e → grid_cell n a b w = (Raise e, w).
Proof.
  unfold run_trial, grid_cell, get_coherence_score. mred.
  unfold mbind, result_bind, rbind.
  destruct (LdaModel _ _ _ _ _) as [m|e1]; simpl; [|by intros [= ->]].
  destruct (get_coherence _ _ _ _) as [c|e2]; simpl; [|by intros [= ->]].
  destruct (log_perplexity _ _) as [p|e3]; simpl; [done | by intros [= ->]].
Qed.

Lemma for_cells_abort (o : LDA) ts1 rms t ts2 e (w : World) log :
  trials o ts1 rms →
  run_trial o t.1.1 t.1.2 t.2 = Raise e →
  corpus (self w) = corpus o → dictionary (self w) = dictionary o →
  texts (self w) = texts o → scores (self w) = Some log →
  for_ (ts1 ++ t :: ts2) cell_of w
  = (Raise e, {| self := foldl log_trial (self w) rms; fs := fs w |}).
Proof.
  intros Hts Ht Hc Hd Hx Hlog. rewrite for_app.
  erewrite bind_run; [|by eapply for_cells_frame]. simpl.
  apply bind_raises. unfold cell_of. apply grid_cell_raise. simpl.
  rewrite <- Ht. destruct (foldl_log_trial_frame (self w) rms) as (Hc' & Hd' & Hx' & _).
  apply run_trial_frame; congruence.
Qed.

(** X4: when the library raises in a cell of the grid, [grid_search] raises
    the same exception at once: the log holds the records of the cells before
    it, in order, the cells after it are not run, and nothing is written, so
    a [scores_from_search.csv] of an earlier search is left as it was. *)
Theorem grid_search_interrupted (w : World) (ns : list Z) (alphas betas : list density)
    ts1 t ts2 rms e :
  grid ns alphas betas = ts1 ++ t :: ts2 →
  trials (self w) ts1 rms →
  run_trial (self w) t.1.1 t.1.2 t.2 = Raise e →
  ∃ w',
    grid_search ns alphas betas w = (Raise e, w') ∧
    scores (self w') = Some rms.*1 ∧
    params <$> rms.*1 = ts1 ∧
    fs w' = fs w.
Proof.
  intros Hgrid Hts Ht. eexists. split.
  - unfold grid_search. erewrite bind_run; [|by unfold assign].
    apply bind_raises. rewrite loops_grid, Hgrid.
    by eapply (for_cells_abort (self w) ts1 rms t ts2 e _ []).
  - simpl. split_and!; [|by eapply trials_params|done].
    by apply (foldl_log_trial_scores _ rms []).
Qed.

(** ** The running best, for any scores *)

Lemma Qltb_false (a b : Q) : Qltb a b = false ↔ (b <= a)%Q.
Proof. unfold Qltb. rewrite negb_false_iff. apply Qle_bool_iff. Qed.

Lemma best_grows_refl (b : pyfloat) : best_grows b b.
Proof. destruct b; simpl; [apply Qle_refl | done]. Qed.

Lemma best_grows_trans (b1 b2 b3 : pyfloat) :
  best_grows b1 b2 → best_grows b2 b3 → best_grows b1 b3.
Proof. destruct b1, b2, b3; simpl; try tauto. apply Qle_trans. Qed.

Lemma py_gt_grows (c b : pyfloat) : py_gt c b = true → best_grows b c.
Proof.
  intros Hgt. apply py_gt_lt in Hgt. destruct b, c; simpl in *; try done.
  by apply Qlt_le_weak.
Qed.

Lemma grows_not_gt (c b b' : pyfloat) :
  py_gt c b = false → best_grows b b' → py_gt c b' = false.
Proof.
  destruct c as [x|]; [|done]. destruct b as [y|], b' as [z|]; simpl; try done.
  rewrite !Qltb_false. intros Hxy Hyz. by eapply Qle_trans.
Qed.

Lemma grown_not_gt (b b' : pyfloat) : best_grows b b' → py_gt b b' = false.
Proof. destruct b, b'; simpl; try done. by rewrite Qltb_false. Qed.

Lemma py_gt_trans (x y z : pyfloat) :
  py_gt x y = true → py_gt y z = true → py_gt x z = true.
Proof.
  rewrite !py_gt_lt. destruct x, y, z; simpl; try tauto.
  intros Hyx Hzy. by eapply Qlt_trans.
Qed.

Lemma log_trial_best (o : LDA) (r : TrialRecord) (m : Model) :
  (py_gt (coherence_score r) (best_score o) = true ∧
   best_score (log_trial o (r, m)) = coherence_score r ∧
   best_params (log_trial o (r, m)) = Some (params r) ∧
   best_model (log_trial o (r, m)) = Some m) ∨
  (py_gt (coherence_score r) (best_score o) = false ∧
   log_trial o (r, m) = set_scores (Some (default [] (scores o) ++ [r])) o).
Proof.
  unfold log_trial, take_best. simpl.
  destruct (py_gt (coherence_score r) (best_score o)); [by left | by right].
Qed.

(** What a fold of trials does to the best-trial attributes. *)
Lemma foldl_log_trial_best (rms : list (TrialRecord * Model)) :
  ∀ o : LDA,
    best_grows (best_score o) (best_score (foldl log_trial o rms)) ∧
    Forall (λ rm, py_gt (coherence_score rm.1)
                        (best_score (foldl log_trial o rms)) = false) rms ∧
    ((best_params (foldl log_trial o rms) = best_params o ∧
      best_score (foldl log_trial o rms) = best_score o ∧
      best_model (foldl log_trial o rms) = best_model o) ∨
     ∃ rm, rm ∈ rms ∧
           py_gt (coherence_score rm.1) (best_score o) = true ∧
           best_score (foldl log_trial o rms) = coherence_score rm.1 ∧
           best_params (foldl log_trial o rms) = Some (params rm.1) ∧
           best_model (foldl log_trial o rms) = Some rm.2).
Proof.
  induction rms as [|[r m] rms IH]; intros o; simpl.
  - split_and!; [apply best_grows_refl | constructor | by left].
  - destruct (IH (log_trial o (r, m))) as (Hgrow & Hall & Hsel).
    destruct (log_trial_best o r m) as [(Hgt & Hs & Hp & Hm) | (Hgt & Heq)].
    + rewrite Hs in Hgrow. split_and!.
      * eapply best_grows_trans; [by apply py_gt_grows | done].
      * constructor; [by apply grown_not_gt | done].
      * right. destruct Hsel as [(Hp' & Hs' & Hm') | (rm & Hin & Hgt' & Hs' & Hp' & Hm')].
        -- exists (r, m). simpl. split_and!; [by left | done | congruence..].
        -- exists rm. split_and!; [by right | | done..].
           rewrite Hs in Hgt'. by eapply py_gt_trans.
    + rewrite Heq in Hgrow, Hall, Hsel |- *. simpl in Hgrow, Hsel. split_and!.
      * done.
      * constructor; [by eapply grows_not_gt | done].
      * destruct Hsel as [Hsame | (rm & Hin & Hrest)]; [by left|].
        right. exists rm. split; [by right | done].
Qed.

(** X5: after a search in which every fit returned, whatever the scores
    ([nan] included): no record of the log has a coherence score above
    [best_score]; [best_score] has not decreased; and the best-trial
    attributes are either the ones the search started with or those of a
    record of this log whose score is above the [best_score] the search
    started with, with the model fitted with its parameters. *)
Theorem grid_search_best_bounds (w : World) (ns : list Z) (alphas betas : list density) :
  (∀ n a b, n ∈ ns → a ∈ alphas → b ∈ betas →
     ∃ rm, run_trial (self w) n a b = Ok rm) →
  ∃ w' log,
    grid_search ns alphas betas w = (Ok tt, w') ∧
    scores (self w') = Some log ∧
    (∀ r, r ∈ log → py_gt (coherence_score r) (best_score (self w')) = false) ∧
    best_grows (best_score (self w)) (best_score (self w')) ∧
    ((best_params (self w') = best_params (self w) ∧
      best_score (self w') = best_score (self w) ∧
      best_model (self w') = best_model (self w)) ∨
     ∃ r m, r ∈ log ∧
            py_gt (coherence_score r) (best_score (self w)) = true ∧
            best_score (self w') = coherence_score r ∧
            best_params (self w') = Some (params r) ∧
            best_model (self w') = Some m ∧
            LdaModel (corpus (self w)) (dictionary (self w))
                     (n_topics r) (alpha r) (beta r) = Ok m).
Proof.
  intros Hall.
  destruct (trials_exist (self w) (grid ns alphas betas) (λ _, True))
    as (rms & Hts & _).
  { intros [[n a] b] Ht. apply elem_of_grid in Ht as (Hin & Hia & Hib).
    destruct (Hall n a b Hin Hia Hib) as (rm & Hrun). eauto. }
  eexists _, rms.*1. split; [by apply grid_search_run|]. simpl.
  split; [by apply (foldl_log_trial_scores _ rms [])|].
  destruct (foldl_log_trial_best rms (set_scores (Some []) (self w)))
    as (Hgrow & Hnone & Hsel).
  split_and!; [|done|].
  - intros r Hr. apply list_elem_of_fmap in Hr as (rm & -> & Hrm).
    by apply (proj1 (Forall_forall _ _) Hnone).
  - destruct Hsel as [Hsame | ([r m] & Hin & Hgt & Hs & Hp & Hm)]; [by left|].
    right. exists r, m. split_and!; [|done..|].
    + apply list_elem_of_fmap. by exists (r, m).
    + apply list_elem_of_lookup in Hin as [i Hi].
      destruct (Forall2_lookup_r _ _ _ _ _ Hts Hi) as ([[n a] b] & _ & Hrun).
      simpl in Hrun. apply run_trial_inv in Hrun as (Hpar & Hfit & _).
      injection Hpar as -> -> ->. done.
Qed.

(** ** The same search again *)

Lemma set_scores_same (o : LDA) (log : list TrialRecord) :
  scores o = Some log → set_scores (Some log) o = o.
Proof. destruct o. simpl. by intros ->. Qed.

Lemma foldl_log_trial_none (rms : list (TrialRecord * Model)) :
  ∀ (o : LDA) log,
    scores o = Some log →
    Forall (λ rm, py_gt (coherence_score rm.1) (best_score o) = false) rms →
    foldl log_trial o rms = set_scores (Some (log ++ rms.*1)) o.
Proof.
  induction rms as [|[r m] rms IH]; intros o log Hlog Hall; simpl.
  - rewrite app_nil_r. symmetry. by apply set_scores_same.
  - apply Forall_cons in Hall as [Hr Hall]. simpl in Hr.
    destruct (log_trial_best o r m) as [(Hgt & _) | (_ & ->)]; [congruence|].
    rewrite Hlog. simpl. rewrite (IH _ (log ++ [r])) by done.
    simpl. by rewrite <- app_assoc.
Qed.

(** X6: a search in which every fit returned, run a second time with the
    same arguments, returns again and leaves the object and the file system
    exactly as the first run left them: the log and the CSV are the same,
    and, the comparison being strict, no trial replaces the best trial. *)
Theorem grid_search_again (w : World) (ns : list Z) (alphas betas : list density) :
  (∀ n a b, n ∈ ns → a ∈ alphas → b ∈ betas →
     ∃ rm, run_trial (self w) n a b = Ok rm) →
  ∃ w1,
    grid_search ns alphas betas w = (Ok tt, w1) ∧
    grid_search ns alphas betas w1 = (Ok tt, w1).
Proof.
  intros Hall.
  destruct (trials_exist (self w) (grid ns alphas betas) (λ _, True))
    as (rms & Hts & _).
  { intros [[n a] b] Ht. apply elem_of_grid in Ht as (Hin & Hia & Hib).
    destruct (Hall n a b Hin Hia Hib) as (rm & Hrun). eauto. }
  eexists. split; [by apply grid_search_run|].
  set (o1 := foldl log_trial (set_scores (Some []) (self w)) rms).
  set (f1 := fs_write scores_csv (CsvFile (scores_rows rms.*1))
               (fs_ensure ["Topics_CSVs"] (fs w))).
  assert (Hts1 : trials o1 (grid ns alphas betas) rms).
  { eapply Forall2_impl; [exact Hts|]. intros t rm <-.
    destruct (foldl_log_trial_frame (set_scores (Some []) (self w)) rms)
      as (Hc & Hd & Hx & _).
    by apply run_trial_frame. }
  rewrite (grid_search_run ns alphas betas rms {| self := o1; fs := f1 |} Hts1).
  simpl. f_equal. f_equal.
  - destruct (foldl_log_trial_best rms (set_scores (Some []) (self w)))
      as (_ & Hnone & _). fold o1 in Hnone.
    rewrite (foldl_log_trial_none rms _ []); [|done..]. simpl.
    apply (set_scores_same o1). by apply (foldl_log_trial_scores _ rms []).
  - rewrite fs_ensure_id.
    + apply fs_write_id. subst f1. simpl. by rewrite lookup_insert_eq.
    + subst f1. apply fs_exists_write. by apply fs_exists_ensure.
Qed.

(** X7: a search in which every fit returned changes, besides the log and
    the best trial, nothing of the object, writes no file but
    [scores_from_search.csv], and creates no directory but [Topics_CSVs]. *)
Theorem grid_search_frame (w : World) (ns : list Z) (alphas betas : list density) :
  (∀ n a b, n ∈ ns → a ∈ alphas → b ∈ betas →
     ∃ rm, run_trial (self w) n a b = Ok rm) →
  ∃ w',
    grid_search ns alphas betas w = (Ok tt, w') ∧
    corpus (self w') = corpus (self w) ∧
    dictionary (self w') = dictionary (self w) ∧
    texts (self w') = texts (self w) ∧
    dates (self w') = dates (self w) ∧
    simple_model (self w') = simple_model (self w) ∧
    time_slice (self w') = time_slice (self w) ∧
    (∀ p, p ≠ scores_csv → files (fs w') !! p = files (fs w) !! p) ∧
    (∀ d, d ∈ dirs (fs w') ↔ d ∈ dirs (fs w) ∨
            (d = ["Topics_CSVs"] ∧ fs_exists ["Topics_CSVs"] (fs w) = false)).
Proof.
  intros Hall.
  destruct (trials_exist (self w) (grid ns alphas betas) (λ _, True))
    as (rms & Hts & _).
  { intros [[n a] b] Ht. apply elem_of_grid in Ht as (Hin & Hia & Hib).
    destruct (Hall n a b Hin Hia Hib) as (rm & Hrun). eauto. }
  eexists. split; [by apply grid_search_run|]. simpl.
  destruct (foldl_log_trial_frame (set_scores (Some []) (self w)) rms)
    as (-> & -> & -> & -> & -> & ->).
  split_and!; try done.
  - intros p Hp. rewrite lookup_insert_ne by done.
    unfold fs_ensure. by destruct (fs_exists _ _).
  - intros d. unfold fs_ensure. destruct (fs_exists _ _) eqn:Hex; simpl.
    + split; [by left | by intros [?|[_ ?]]].
    + rewrite !elem_of_union, elem_of_singleton, elem_of_empty. split.
      * intros [[Hd|[]]|Hd]; [by right | by left].
      * intros [Hd|[Hd _]]; [by right | by left; left].
Qed.

(** ** [time_slicer]: a date without a year, and the sum of the slices *)

Lemma count_years_raise (ds : list (list Z)) :
  [] ∈ ds →
  ∀ yc, rfold count_year yc ds = Raise (IndexError "list index out of range").
Proof.
  induction ds as [|item ds IH]; intros Hin yc.
  - by apply elem_of_nil in Hin.
  - destruct item as [|year rest]; [done|].
    apply elem_of_cons in Hin as [?|Hin]; [done|].
    destruct (count_year_total yc year rest) as (yc1 & Hrun1 & _).
    cbn [rfold]. rewrite Hrun1. by apply IH.
Qed.

(** X8: when a date is an empty sequence, [time_slicer] raises
    [IndexError] at [item[0]]; the slices cached by an earlier call are not
    replaced, and nothing else changes. *)
Theorem time_slicer_date_without_year (w : World) (year_batches : list (list Z)) :
  [] ∈ dates (self w) →
  time_slicer year_batches w = (Raise (IndexError "list index out of range"), w).
Proof.
  intros Hin. unfold time_slicer. mred.
  rewrite (count_years_raise _ Hin). by destruct w.
Qed.

Lemma sum_Z_fmap_add {A} (f g : A → Z) (l : list A) :
  sum_Z ((λ x, f x + g x) <$> l) = sum_Z (f <$> l) + sum_Z (g <$> l).
Proof.
  unfold sum_Z. induction l as [|x l IH]; [done|].
  rewrite !fmap_cons. cbn [foldr]. rewrite IH. lia.
Qed.

Lemma sum_Z_indicator {A} (p : A → bool) (l : list A) :
  sum_Z ((λ x, if p x then 1 else 0) <$> l)
  = Z.of_nat (length (filter (λ x, p x = true) l)).
Proof.
  unfold sum_Z. induction l as [|x l IH]; [done|].
  rewrite fmap_cons, filter_cons. cbn [foldr]. rewrite IH.
  destruct (p x); simpl; lia.
Qed.

Lemma sum_Z_fmap_ext {A} (f g : A → Z) (l : list A) :
  (∀ x, f x = g x) → sum_Z (f <$> l) = sum_Z (g <$> l).
Proof. intros Hfg. f_equal. apply list_fmap_ext. auto. Qed.

(** Counting by batch and counting by document give the same total. *)
Lemma sum_batch_count (ds batches : list (list Z)) :
  sum_Z (batch_count ds <$> batches) = sum_Z (memberships batches <$> ds).
Proof.
  induction ds as [|item ds IH].
  - unfold sum_Z. simpl. induction batches as [|b bs IHb]; [done|].
    rewrite fmap_cons. cbn [foldr]. by rewrite IHb.
  - rewrite fmap_cons. unfold sum_Z at 2. cbn [foldr]. fold (sum_Z (memberships batches <$> ds)).
    rewrite <- IH.
    rewrite (sum_Z_fmap_ext _ (λ b, (if in_batch b item then 1 else 0) + batch_count ds b));
      [|intros b; apply batch_count_cons].
    rewrite (sum_Z_fmap_add (λ b, if in_batch b item then 1 else 0)).
    by rewrite sum_Z_indicator.
Qed.

Lemma sum_Z_const_one {A} (f : A → Z) (l : list A) :
  (∀ x, x ∈ l → f x = 1) → sum_Z (f <$> l) = Z.of_nat (length l).
Proof.
  unfold sum_Z. induction l as [|x l IH]; intros Hf; [done|].
  rewrite fmap_cons. cbn [foldr length]. rewrite IH, Hf; [lia | by left |].
  intros y Hy. apply Hf. by right.
Qed.

Lemma sum_Z_at_most_one {A} (f : A → Z) (l : list A) :
  (∀ x, x ∈ l → f x ≤ 1) → sum_Z (f <$> l) ≤ Z.of_nat (length l).
Proof.
  unfold sum_Z. induction l as [|x l IH]; intros Hf; [done|].
  rewrite fmap_cons. cbn [foldr length].
  assert (f x ≤ 1) by (apply Hf; by left).
  assert (foldr Z.add 0 (f <$> l) ≤ Z.of_nat (length l)).
  { apply IH. intros y Hy. apply Hf. by right. }
  lia.
Qed.

(** X9: on dates that all have a year, the slices add up to the number of
    batch memberships of the documents.  So when every document is in
    exactly one batch the sum is the number of documents, which is what a
    sequential model needs of its [time_slice]; when every document is in at
    most one batch the sum does not exceed it. *)
Theorem time_slicer_sum (w : World) (year_batches : list (list Z)) :
  Forall (λ item, item ≠ []) (dates (self w)) →
  ∃ ts w',
    time_slicer year_batches w = (Ok ts, w') ∧
    time_slice (self w') = Some ts ∧
    sum_Z ts = sum_Z (memberships year_batches <$> dates (self w)) ∧
    ((∀ item, item ∈ dates (self w) → memberships year_batches item = 1) →
     sum_Z ts = Z.of_nat (length (dates (self w)))) ∧
    ((∀ item, item ∈ dates (self w) → memberships year_batches item ≤ 1) →
     sum_Z ts ≤ Z.of_nat (length (dates (self w)))).
Proof.
  intros Hdates. eexists _, _. split; [by apply time_slicer_run|]. simpl.
  split; [done|]. rewrite sum_batch_count. split_and!.
  - done.
  - apply sum_Z_const_one.
  - apply sum_Z_at_most_one.
Qed.

(** ** [build_best_model] and [viz] after a search or a fit *)

Lemma files_fs_ensure (p : path) (f : FS) : files (fs_ensure p f) = files f.
Proof. unfold fs_ensure. by destruct (fs_exists p f). Qed.



Lemma viz_run (w : World) (model_type : string) m v :
  viz_model (self w) model_type m →
  enable_notebook = Ok tt →
  prepare m (corpus (self w)) (dictionary (self w)) = Ok v →
  viz model_type w =
    (Ok v, {| self := self w;
              fs := fs_write (viz_html model_type) (HtmlFile v)
                      (fs_ensure ["Plots"] (fs w)) |}).
Proof.
  intros Hsel Hnb Hv. unfold viz.
  erewrite bind_run; last first.
  { destruct Hsel as [[-> Hm]|[-> Hm]]; simpl; mred; rewrite Hm; done. }
  erewrite bind_run; [|unfold call; by rewrite Hnb].
  erewrite bind_run; [|by unfold attr].
  erewrite bind_run; [|by unfold attr].
  erewrite bind_run; [|unfold call; by rewrite Hv]. cbv zeta.
  erewrite bind_run; [|by apply ensure_dir_run].
  erewrite bind_run; [|by unfold write_file]. done.
Qed.

(** X11: [viz] writes one file, named after [model_type], and nothing else:
    with both models present, [enable_notebook] returning and both
    preparations returning, [viz('best')] followed by [viz('simple')] leaves
    the two HTML files side by side, each with the visualization of its own
    model, and every other file and the object as they were. *)
Theorem viz_best_then_simple (w : World) mb ms vb vs :
  best_model (self w) = Some mb →
  simple_model (self w) = Some ms →
  enable_notebook = Ok tt →
  prepare mb (corpus (self w)) (dictionary (self w)) = Ok vb →
  prepare ms (corpus (self w)) (dictionary (self w)) = Ok vs →
  ∃ w1 w2,
    viz "best" w = (Ok vb, w1) ∧
    viz "simple" w1 = (Ok vs, w2) ∧
    self w2 = self w ∧
    files (fs w2) !! viz_html "best" = Some (HtmlFile vb) ∧
    files (fs w2) !! viz_html "simple" = Some (HtmlFile vs) ∧
    ∀ p, p ≠ viz_html "best" → p ≠ viz_html "simple" →
         files (fs w2) !! p = files (fs w) !! p.
Proof.
  intros Hb Hs Hnb Hvb Hvs. eexists _, _.
  split; [by apply (viz_run w "best" mb vb); [left| |]|].
  split; [by apply (viz_run _ "simple" ms vs); [right| |]|].
  simpl. split_and!.
  - done.
  - rewrite lookup_insert_ne by done. rewrite files_fs_ensure. simpl.
    by rewrite lookup_insert_eq.
  - by rewrite lookup_insert_eq.
  - intros p Hpb Hps. rewrite lookup_insert_ne by done.
    rewrite files_fs_ensure. simpl. rewrite lookup_insert_ne by done.
    by rewrite files_fs_ensure.
Qed.

Lemma simple_fit_run (w : World) n a b m c p :
  LdaModel (corpus (self w)) (dictionary (self w)) n a b = Ok m →
  get_coherence m (texts (self w)) (corpus (self w)) (dictionary (self w)) = Ok c →
  log_perplexity m (corpus (self w)) = Ok p →
  simple_fit n a b w =
    (Ok m,
     {| self := set_simple_model (Some m) (self w);
        fs := fs_write simple_model_file (SavedLda m)
                (fs_ensure ["LDAModels_Gensim"]
                   (fs_write simple_topics_csv
                      (CsvFile (simple_topics_rows (print_topics m)))
                      (fs_ensure ["Topics_CSVs"] (fs w)))) |}).
Proof.
  intros Hm Hc Hp. unfold simple_fit. mred.
  rewrite Hm. simpl. rewrite Hc. simpl. rewrite Hp. simpl.
  unfold ensure_dir. mred. unfold fs_ensure.
  destruct (fs_exists ["Topics_CSVs"] (fs w)); simpl;
    destruct (fs_exists ["LDAModels_Gensim"] _); done.
Qed.

(** X12: after a [simple_fit] that returned, [viz('simple')] finds the
    model and does not raise its own exception: when [enable_notebook] and
    the preparation return, the topics, the saved model and the
    visualization of this model are all three on disk, and [simple_fit] has
    not selected a best trial. *)
Theorem simple_fit_then_viz (w : World) n a b m c p v :
  LdaModel (corpus (self w)) (dictionary (self w)) n a b = Ok m →
  get_coherence m (texts (self w)) (corpus (self w)) (dictionary (self w)) = Ok c →
  log_perplexity m (corpus (self w)) = Ok p →
  enable_notebook = Ok tt →
  prepare m (corpus (self w)) (dictionary (self w)) = Ok v →
  ∃ w1 w2,
    simple_fit n a b w = (Ok m, w1) ∧
    simple_model (self w1) = Some m ∧
    best_params (self w1) = best_params (self w) ∧
    viz "simple" w1 = (Ok v, w2) ∧
    files (fs w2) !! simple_topics_csv
    = Some (CsvFile (simple_topics_rows (print_topics m))) ∧
    files (fs w2) !! simple_model_file = Some (SavedLda m) ∧
    files (fs w2) !! viz_html "simple" = Some (HtmlFile v).
Proof.
  intros Hm Hc Hp Hnb Hv. eexists _, _.
  split; [by eapply simple_fit_run|]. split; [done|]. split; [done|].
  split; [by apply (viz_run _ "simple" m v); [right| |]|]. simpl.
  split_and!.
  - rewrite !lookup_insert_ne by done. rewrite !files_fs_ensure. simpl.
    rewrite lookup_insert_ne by done. rewrite files_fs_ensure. simpl.
    by rewrite lookup_insert_eq.
  - rewrite lookup_insert_ne by done. rewrite files_fs_ensure. simpl.
    by rewrite lookup_insert_eq.
  - by rewrite lookup_insert_eq.
Qed.

(** ** [DTM] and [DTM_upload] *)

Lemma string_length_app (s1 s2 : string) :
  String.length (s1 +:+ s2) = (String.length s1 + String.length s2)%nat.
Proof. induction s1 as [|a s1 IH]; simpl; [done | by rewrite IH]. Qed.

Lemma string_app_inj_r (s1 s2 t : string) : s1 +:+ t = s2 +:+ t → s1 = s2.
Proof.
  revert s2. induction s1 as [|a s1 IH]; intros [|b s2] Heq; simpl in *.
  - done.
  - apply (f_equal String.length) in Heq.
    rewrite !string_length_app in Heq. simpl in Heq. lia.
  - apply (f_equal String.length) in Heq.
    rewrite !string_length_app in Heq. simpl in Heq. lia.
  - injection Heq as -> Heq. f_equal. by apply IH.
Qed.

Lemma topic_csv_inj (i j : nat) : topic_csv i = topic_csv j → i = j.
Proof.
  unfold topic_csv, join, topics_directory. simpl. intros [= Heq].
  change (pretty (Z.of_nat i + 1) +:+ "_words_time.csv"
          = pretty (Z.of_nat j + 1) +:+ "_words_time.csv") in Heq.
  apply string_app_inj_r in Heq. apply (inj pretty) in Heq. lia.
Qed.

Lemma for_writes {A} (l : list A) (pth : A → path) (cnt : A → content) (w : World) :
  for_ l (λ x, write_file (pth x) (cnt x)) w
  = (Ok tt, {| self := self w;
               fs := foldl (λ f x, fs_write (pth x) (cnt x) f) (fs w) l |}).
Proof.
  revert w. induction l as [|x l IH]; intros w; simpl; [by destruct w|].
  erewrite bind_run; [|by unfold write_file]. by rewrite IH.
Qed.

(** The files after the CSVs of the topics are written. *)
Lemma fs_export_files (frames : list Frame) (f : FS) :
  (∀ i df, frames !! i = Some df →
     files (fs_export frames f) !! topic_csv i = Some (FrameCsv df)) ∧
  (∀ p, (∀ i, (i < length frames)%nat → p ≠ topic_csv i) →
     files (fs_export frames f) !! p = files f !! p) ∧
  (∀ p, fs_exists p (fs_ensure topics_directory f) = true →
        fs_exists p (fs_export frames f) = true).
Proof.
  unfold fs_export. induction frames as [|df0 frames IH] using rev_ind.
  - split_and!; [done | | done]. intros p _. simpl. apply (f_equal (.!! p)).
    apply files_fs_ensure.
  - destruct IH as (IHin & IHout & IHex).
    rewrite enumerate_snoc, foldl_app. simpl. split_and!.
    + intros i df Hi. apply lookup_app_Some in Hi as [Hi | [Hge Hi]].
      * pose proof (lookup_lt_Some _ _ _ Hi) as Hlt.
        rewrite lookup_insert_ne; [by apply IHin|].
        intros Heq%topic_csv_inj. lia.
      * apply list_lookup_singleton_Some in Hi as [Hi <-].
        replace i with (length frames) by lia. by rewrite lookup_insert_eq.
    + intros p Hp. rewrite length_app in Hp. simpl in Hp.
      rewrite lookup_insert_ne; [|intros <-; by apply (Hp (length frames)); [lia|]].
      apply IHout. intros i Hi. apply Hp. lia.
    + intros p Hp. by apply fs_exists_write, IHex.
Qed.

Lemma fs_export_again (frames : list Frame) (f : FS) :
  fs_export frames (fs_export frames f) = fs_export frames f.
Proof.
  destruct (fs_export_files frames f) as (Hin & _ & Hex).
  set (f1 := fs_export frames f) in *. unfold fs_export at 1.
  rewrite fs_ensure_id; [|by apply Hex, fs_exists_ensure].
  clearbody f1. clear Hex. revert Hin.
  induction frames as [|df0 frames IH] using rev_ind; intros Hin; [done|].
  rewrite enumerate_snoc, foldl_app. simpl. rewrite IH.
  - apply fs_write_id, Hin. by rewrite lookup_app_r, Nat.sub_diag.
  - intros i df Hi. apply Hin. by apply lookup_app_l_Some.
Qed.

Lemma mapM_result_length {A B} (f : A → result B) (l : list A) (k : list B) :
  mapM f l = Ok k → length k = length l.
Proof.
  revert k. induction l as [|x l IH]; intros k; simpl.
  - by intros [= <-].
  - unfold mbind, result_bind, rbind, mret, result_ret.
    destruct (f x) as [y|]; [|done]. destruct (mapM f l) as [k'|]; [|done].
    intros [= <-]. simpl. by rewrite (IH k').
Qed.

Lemma export_topics_run (w : World) seq_m year_batches frames :
  exported (self w) seq_m year_batches frames →
  export_topics seq_m year_batches w
  = (Ok tt, {| self := self w; fs := fs_export frames (fs w) |}).
Proof.
  intros (n & a & b & topics & labels & Hp & Htopics & Hlabels & Hframes).
  unfold export_topics.
  erewrite bind_run; [|by unfold attr]. rewrite Hp.
  erewrite bind_run; [|done]. simpl.
  erewrite bind_run; [|unfold call; by rewrite Htopics].
  erewrite bind_run; [|unfold call; by rewrite Hlabels].
  erewrite bind_run; [|unfold call; by rewrite Hframes]. cbv zeta.
  erewrite bind_run; [|by apply ensure_dir_run].
  by rewrite for_writes.
Qed.

(** [export_topics] when one of its calls raises: nothing is written. *)
Lemma export_topics_raise (w : World) seq_m year_batches n a b e :
  best_params (self w) = Some (n, a, b) →
  mapM (print_topic_times seq_m) (seqZ 0 n) = Raise e ∨
  (∃ topics, mapM (print_topic_times seq_m) (seqZ 0 n) = Ok topics ∧
     (mapM period_label year_batches = Raise e ∨
      ∃ labels, mapM period_label year_batches = Ok labels ∧
                mapM (λ topic, topic_time topic labels) topics = Raise e)) →
  export_topics seq_m year_batches w = (Raise e, w).
Proof.
  intros Hp Herr. unfold export_topics. mred. rewrite Hp. simpl.
  destruct Herr as [-> | (topics & -> & [-> | (labels & -> & ->)])]; simpl;
    by destruct w.
Qed.

(** [DTM] once the sequential model is built: the model is saved, then the
    topics are exported. *)
Lemma DTM_run_model (w : World) year_batches n a b seq_m :
  best_params (self w) = Some (n, a, b) →
  LdaSeqModel (corpus (self w)) (dictionary (self w)) (time_slice (self w)) n a
              (best_model (self w)) = Ok seq_m →
  DTM year_batches w
  = export_topics seq_m year_batches
      {| self := self w;
         fs := fs_write dtm_model_file (SavedSeq seq_m)
                 (fs_ensure ["LDAModels_Gensim"] (fs w)) |}.
Proof.
  intros Hp Hseq. unfold DTM.
  erewrite bind_run; [|by unfold attr].
  erewrite bind_run; [|by unfold attr].
  erewrite bind_run; [|by unfold attr].
  erewrite bind_run; [|by unfold attr]. rewrite Hp.
  erewrite bind_run; [|done].
  erewrite bind_run; [|done].
  erewrite bind_run; [|by unfold attr]. simpl.
  erewrite bind_run; [|unfold call; by rewrite Hseq].
  erewrite bind_run; [|by apply ensure_dir_run].
  erewrite bind_run; [|by unfold write_file]. done.
Qed.

(** X13: when the sequential model is built and every call of the export
    returns, [DTM] leaves the object alone, saves the model, and writes one
    CSV per topic of the best model and no more: [topic1_words_time.csv] for
    topic 0 up to [topic<n>_words_time.csv], each with the frame of its own
    topic; every other file is as before. *)
Theorem DTM_exports_every_topic (w : World) (year_batches : list (list Z))
    n a b seq_m topics labels frames :
  best_params (self w) = Some (n, a, b) →
  LdaSeqModel (corpus (self w)) (dictionary (self w)) (time_slice (self w)) n a
              (best_model (self w)) = Ok seq_m →
  mapM (print_topic_times seq_m) (seqZ 0 n) = Ok topics →
  mapM period_label year_batches = Ok labels →
  mapM (λ topic, topic_time topic labels) topics = Ok frames →
  ∃ w',
    DTM year_batches w = (Ok tt, w') ∧
    self w' = self w ∧
    files (fs w') !! dtm_model_file = Some (SavedSeq seq_m) ∧
    length frames = Z.to_nat n ∧
    (∀ i df, frames !! i = Some df →
       files (fs w') !! topic_csv i = Some (FrameCsv df)) ∧
    (∀ p, p ≠ dtm_model_file → (∀ i, (i < length frames)%nat → p ≠ topic_csv i) →
       files (fs w') !! p = files (fs w) !! p).
Proof.
  intros Hp Hseq Htopics Hlabels Hframes.
  eexists. split.
  { rewrite (DTM_run_model w year_batches n a b seq_m Hp Hseq).
    apply (export_topics_run _ seq_m year_batches frames).
    by exists n, a, b, topics, labels. }
  simpl. split; [done|].
  destruct (fs_export_files frames
              (fs_write dtm_model_file (SavedSeq seq_m)
                 (fs_ensure ["LDAModels_Gensim"] (fs w)))) as (Hin & Hout & _).
  split_and!.
  - rewrite Hout; [simpl; by rewrite lookup_insert_eq|]. by intros i _.
  - rewrite (mapM_result_length _ _ _ Hframes), (mapM_result_length _ _ _ Htopics).
    apply length_seqZ.
  - done.
  - intros p Hpm Hpt. rewrite (Hout p Hpt). simpl.
    rewrite lookup_insert_ne by done. by rewrite files_fs_ensure.
Qed.

Lemma period_label_cons (y : Z) (l : list Z) : ∃ s, period_label (y :: l) = Ok s.
Proof.
  unfold period_label, last_item. simpl. unfold mbind, result_bind. simpl.
  destruct (last (y :: l)) as [z|] eqn:Hlast; [by eexists|].
  by apply last_None in Hlast.
Qed.

Lemma labels_raise (year_batches : list (list Z)) :
  [] ∈ year_batches →
  mapM period_label year_batches = Raise (IndexError "list index out of range").
Proof.
  induction year_batches as [|batch bs IH]; intros Hin.
  - by apply elem_of_nil in Hin.
  - destruct batch as [|y l]; [done|].
    apply elem_of_cons in Hin as [?|Hin]; [done|].
    destruct (period_label_cons y l) as [s Hs].
    cbn [mapM]. rewrite Hs, (IH Hin). done.
Qed.

(** X14: [DTM] saves the sequential model before it exports the topics.
    When the construction of the model raises, nothing is written.  Once
    the model is built and saved, an exception of [print_topic_times] or of
    [topic_time], or the [IndexError] of the label of an empty batch of
    [year_batches], is raised by [DTM] with the model file on disk and no
    CSV of a topic: an empty batch is found only after the model has been
    fitted and saved. *)
Theorem DTM_raises_after_saving (w : World) (year_batches : list (list Z)) n a b :
  best_params (self w) = Some (n, a, b) →
  (∀ e, LdaSeqModel (corpus (self w)) (dictionary (self w)) (time_slice (self w))
                    n a (best_model (self w)) = Raise e →
        DTM year_batches w = (Raise e, w)) ∧
  (∀ seq_m,
     LdaSeqModel (corpus (self w)) (dictionary (self w)) (time_slice (self w))
                 n a (best_model (self w)) = Ok seq_m →
     (∀ e, mapM (print_topic_times seq_m) (seqZ 0 n) = Raise e →
           DTM year_batches w = (Raise e, model_saved w seq_m)) ∧
     (∀ topics, mapM (print_topic_times seq_m) (seqZ 0 n) = Ok topics →
                [] ∈ year_batches →
                DTM year_batches w
                = (Raise (IndexError "list index out of range"), model_saved w seq_m)) ∧
     (∀ topics labels e,
        mapM (print_topic_times seq_m) (seqZ 0 n) = Ok topics →
        mapM period_label year_batches = Ok labels →
        mapM (λ topic, topic_time topic labels) topics = Raise e →
        DTM year_batches w = (Raise e, model_saved w seq_m))).
Proof.
  intros Hp. split.
  - intros e Hseq. unfold DTM. mred. rewrite Hp. simpl. rewrite Hseq. by destruct w.
  - intros seq_m Hseq. rewrite (DTM_run_model w year_batches n a b seq_m Hp Hseq).
    fold (model_saved w seq_m). split_and!.
    + intros e Herr. apply (export_topics_raise _ _ _ n a b); [done | by left].
    + intros topics Htopics Hin.
      apply (export_topics_raise _ _ _ n a b); [done|].
      right. exists topics. split; [done|]. left. by apply labels_raise.
    + intros topics labels e Htopics Hlabels Hframes.
      apply (export_topics_raise _ _ _ n a b); [done|].
      right. exists topics. split; [done|]. right. by exists labels.
Qed.

(** X15: [DTM_upload] reads back what [DTM] saved: after a [DTM] that
    returned, and with a [load] that returns what [save] stored,
    [DTM_upload] with the same [year_batches] returns the sequential model
    that [DTM] built, writes the same CSVs again, and leaves the object and
    the file system exactly as [DTM] left them. *)
Theorem DTM_then_DTM_upload (load : FS → path → result SeqModel) (w : World)
    (year_batches : list (list Z)) n a b seq_m topics labels frames :
  loads_saved load →
  best_params (self w) = Some (n, a, b) →
  LdaSeqModel (corpus (self w)) (dictionary (self w)) (time_slice (self w)) n a
              (best_model (self w)) = Ok seq_m →
  mapM (print_topic_times seq_m) (seqZ 0 n) = Ok topics →
  mapM period_label year_batches = Ok labels →
  mapM (λ topic, topic_time topic labels) topics = Ok frames →
  ∃ w1,
    DTM year_batches w = (Ok tt, w1) ∧
    DTM_upload load year_batches w1 = (Ok seq_m, w1).
Proof.
  intros [Hload _] Hp Hseq Htopics Hlabels Hframes.
  set (f1 := fs_write dtm_model_file (SavedSeq seq_m)
               (fs_ensure ["LDAModels_Gensim"] (fs w))).
  assert (Hexp : ∀ f, exported (self {| self := self w; fs := f |})
                               seq_m year_batches frames).
  { intros f. by exists n, a, b, topics, labels. }
  exists {| self := self w; fs := fs_export frames f1 |}. split.
  { rewrite (DTM_run_model w year_batches n a b seq_m Hp Hseq).
    by apply (export_topics_run {| self := self w; fs := f1 |}
                seq_m year_batches frames). }
  unfold DTM_upload.
  erewrite bind_run; last first.
  { simpl. rewrite (Hload _ _ seq_m); [done|].
    destruct (fs_export_files frames f1) as (_ & Hout & _).
    rewrite Hout; [subst f1; simpl; by rewrite lookup_insert_eq|]. by intros i _. }
  erewrite bind_run;
    [|by apply (export_topics_run {| self := self w; fs := fs_export frames f1 |}
                  seq_m year_batches frames)].
  simpl. by rewrite fs_export_again.
Qed.

(** X16: [DTM_upload] makes every call that may raise before it writes.
    With a [load] that raises on a missing file, it raises when no
    sequential model has been saved; when the model loads but [best_params]
    is [None], it raises the [TypeError] of [self.best_params[0]]; and when
    [print_topic_times] raises, or [year_batches] has an empty batch, it
    raises that exception.  In all these cases the object and the file
    system are as before the call: unlike [DTM], it leaves nothing behind
    for an empty batch. *)
Theorem DTM_upload_errors (load : FS → path → result SeqModel)
    (year_batches : list (list Z)) :
  (∀ w, loads_saved load → files (fs w) !! dtm_model_file = None →
        ∃ e, DTM_upload load year_batches w = (Raise e, w)) ∧
  (∀ w seq_m, load (fs w) dtm_model_file = Ok seq_m →
              best_params (self w) = None →
              DTM_upload load year_batches w
              = (Raise (TypeError "'NoneType' object is not subscriptable"), w)) ∧
  (∀ w seq_m n a b,
     load (fs w) dtm_model_file = Ok seq_m →
     best_params (self w) = Some (n, a, b) →
     (∀ e, mapM (print_topic_times seq_m) (seqZ 0 n) = Raise e →
           DTM_upload load year_batches w = (Raise e, w)) ∧
     (∀ topics, mapM (print_topic_times seq_m) (seqZ 0 n) = Ok topics →
                [] ∈ year_batches →
                DTM_upload load year_batches w
                = (Raise (IndexError "list index out of range"), w))).
Proof.
  split_and!.
  - intros w [_ Hmiss] Hnone. destruct (Hmiss _ _ Hnone) as [e He].
    exists e. unfold DTM_upload. mred.
    unfold dtm_model_file in He. rewrite He. by destruct w.
  - intros w seq_m Hload Hnone. unfold DTM_upload, export_topics. mred.
    unfold dtm_model_file in Hload. rewrite Hload. simpl. rewrite Hnone. simpl.
    by destruct w.
  - intros w seq_m n a b Hload Hp.
    assert (Hup : ∀ e, export_topics seq_m year_batches w = (Raise e, w) →
                       DTM_upload load year_batches w = (Raise e, w)).
    { intros e Hexp. unfold DTM_upload.
      erewrite bind_run; [|unfold dtm_model_file in Hload; by rewrite Hload].
      by apply bind_raises. }
    split.
    + intros e Herr. apply Hup.
      apply (export_topics_raise _ _ _ n a b); [done | by left].
    + intros topics Htopics Hin. apply Hup.
      apply (export_topics_raise _ _ _ n a b); [done|].
      right. exists topics. split; [done|]. left. by apply labels_raise.
Qed.

End MoreProofs.

(** * The further properties on the small library *)

Lemma toy_loads_saved : loads_saved Toy.load.
Proof.
  split.
  - intros f pth m Hm. unfold Toy.load. by rewrite Hm.
  - intros f pth Hnone. unfold Toy.load. rewrite Hnone. by eexists.
Qed.

Lemma grid_search_keeps_consistent_witness :
  let run :=
    grid_search (H := Toy.lib) [2; 5; 0; 3] [Toy.tenth] [Toy.tenth] (Toy.fresh []) in
  best_consistent (self run.2) ∧
  (best_params (self run.2) = None ↔ best_model (self run.2) = None).
Proof.
  apply (grid_search_keeps_consistent (H := Toy.lib) (Toy.fresh [])
           [2; 5; 0; 3] [Toy.tenth] [Toy.tenth]).
  by left.
Defined.

Lemma grid_search_interrupted_witness :
  ∃ w' log,
    grid_search (H := Toy.lib) [2; 0; 3] [Toy.tenth] [Toy.tenth] (Toy.fresh [])
    = (Raise (LibraryError "num_topics must be positive"), w') ∧
    scores (self w') = Some log ∧
    params <$> log = [(2, Toy.tenth, Toy.tenth)] ∧
    fs w' = fs (Toy.fresh []).
Proof.
  destruct (grid_search_interrupted (H := Toy.lib) (Toy.fresh [])
              [2; 0; 3] [Toy.tenth] [Toy.tenth]
              [(2, Toy.tenth, Toy.tenth)] (0, Toy.tenth, Toy.tenth)
              [(3, Toy.tenth, Toy.tenth)]
              [({| n_topics := 2; alpha := Toy.tenth; beta := Toy.tenth;
                   coherence_score := Fin (4 # 10);
                   perplexity_score := Fin (- (7 # 1)) |},
                (2, Toy.tenth, Toy.tenth))]
              (LibraryError "num_topics must be positive"))
    as (w' & Hrun & Hlog & Hparams & Hfs).
  - reflexivity.
  - constructor; [reflexivity | constructor].
  - reflexivity.
  - by exists w', [{| n_topics := 2; alpha := Toy.tenth; beta := Toy.tenth;
                      coherence_score := Fin (4 # 10);
                      perplexity_score := Fin (- (7 # 1)) |}].
Defined.

Lemma grid_search_best_bounds_witness :
  ∃ w' log,
    grid_search (H := Toy.lib) [2; 5; 3] [Toy.tenth] [Toy.tenth] Toy.searched
    = (Ok tt, w') ∧
    scores (self w') = Some log ∧
    (∀ r, r ∈ log → py_gt (coherence_score r) (best_score (self w')) = false) ∧
    best_grows (best_score (self Toy.searched)) (best_score (self w')) ∧
    ((best_params (self w') = best_params (self Toy.searched) ∧
      best_score (self w') = best_score (self Toy.searched) ∧
      best_model (self w') = best_model (self Toy.searched)) ∨
     ∃ r m, r ∈ log ∧
            py_gt (coherence_score r) (best_score (self Toy.searched)) = true ∧
            best_score (self w') = coherence_score r ∧
            best_params (self w') = Some (params r) ∧
            best_model (self w') = Some m ∧
            LdaModel (corpus (self Toy.searched)) (dictionary (self Toy.searched))
                     (n_topics r) (alpha r) (beta r) = Ok m).
Proof.
  apply (grid_search_best_bounds (H := Toy.lib) Toy.searched
           [2; 5; 3] [Toy.tenth] [Toy.tenth]).
  intros n a b Hn Ha Hb. cases_in Hn; cases_in Ha; cases_in Hb; eexists; reflexivity.
Defined.

Lemma grid_search_again_witness :
  ∃ w1,
    grid_search (H := Toy.lib) [2; 5; 3; 4] [Toy.tenth] [Toy.tenth] (Toy.fresh [])
    = (Ok tt, w1) ∧
    grid_search (H := Toy.lib) [2; 5; 3; 4] [Toy.tenth] [Toy.tenth] w1 = (Ok tt, w1).
Proof.
  apply (grid_search_again (H := Toy.lib) (Toy.fresh [])
           [2; 5; 3; 4] [Toy.tenth] [Toy.tenth]).
  intros n a b Hn Ha Hb. cases_in Hn; cases_in Ha; cases_in Hb; eexists; reflexivity.
Defined.

Lemma grid_search_frame_witness :
  ∃ w',
    grid_search (H := Toy.lib) [2; 3] [Toy.tenth] [Toy.tenth] Toy.sliced = (Ok tt, w') ∧
    corpus (self w') = corpus (self Toy.sliced) ∧
    dictionary (self w') = dictionary (self Toy.sliced) ∧
    texts (self w') = texts (self Toy.sliced) ∧
    dates (self w') = dates (self Toy.sliced) ∧
    simple_model (self w') = simple_model (self Toy.sliced) ∧
    time_slice (self w') = time_slice (self Toy.sliced) ∧
    (∀ p, p ≠ scores_csv → files (fs w') !! p = files (fs Toy.sliced) !! p) ∧
    (∀ d, d ∈ dirs (fs w') ↔ d ∈ dirs (fs Toy.sliced) ∨
            (d = ["Topics_CSVs"] ∧ fs_exists ["Topics_CSVs"] (fs Toy.sliced) = false)).
Proof.
  apply (grid_search_frame (H := Toy.lib) Toy.sliced [2; 3] [Toy.tenth] [Toy.tenth]).
  intros n a b Hn Ha Hb. cases_in Hn; cases_in Ha; cases_in Hb; eexists; reflexivity.
Defined.

Lemma time_slicer_date_without_year_witness :
  time_slicer (H := Toy.lib) Toy.two_batches (Toy.fresh [[2000]; []; [2002]])
  = (Raise (IndexError "list index out of range"), Toy.fresh [[2000]; []; [2002]]).
Proof.
  apply (time_slicer_date_without_year (H := Toy.lib) (Toy.fresh [[2000]; []; [2002]])).
  simpl. apply list_elem_of_further, list_elem_of_here.
Defined.

Lemma time_slicer_sum_witness :
  ∃ ts w',
    time_slicer (H := Toy.lib) Toy.two_batches (Toy.fresh [[2000]; [2001]; [2003]])
    = (Ok ts, w') ∧
    time_slice (self w') = Some ts ∧
    sum_Z ts = 3.
Proof.
  destruct (time_slicer_sum (H := Toy.lib) (Toy.fresh [[2000]; [2001]; [2003]])
              Toy.two_batches) as (ts & w' & Hrun & Hslice & _ & Hone & _).
  - simpl. by repeat constructor.
  - exists ts, w'. split; [done|]. split; [done|]. apply Hone.
    intros item Hitem. simpl in Hitem. cases_in Hitem; reflexivity.
Defined.

Lemma library_errors_before_writes_witness :
  simple_fit (H := Toy.lib) 0 Toy.tenth Toy.tenth (Toy.fresh [])
  = (Raise (LibraryError "num_topics must be positive"), Toy.fresh []) ∧
  viz (H := Toy.headless) "best" Toy.headless_searched
  = (Raise (LibraryError "not in a notebook"), Toy.headless_searched).
Proof.
  split.
  - apply (proj1 (library_errors_before_writes (H := Toy.lib) (Toy.fresh [])
                    (LibraryError "num_topics must be positive"))).
    left. reflexivity.
  - apply (proj2 (library_errors_before_writes (H := Toy.headless)
                    Toy.headless_searched (LibraryError "not in a notebook"))
             "best" Toy.headless_model3).
    + left. split; reflexivity.
    + left. reflexivity.
Defined.


Lemma viz_best_then_simple_witness :
  ∃ w1 w2,
    viz (H := Toy.lib) "best" Toy.fitted = (Ok 3, w1) ∧
    viz (H := Toy.lib) "simple" w1 = (Ok 2, w2) ∧
    self w2 = self Toy.fitted ∧
    files (fs w2) !! viz_html "best" = Some (HtmlFile (H := Toy.lib) 3) ∧
    files (fs w2) !! viz_html "simple" = Some (HtmlFile (H := Toy.lib) 2) ∧
    ∀ p, p ≠ viz_html "best" → p ≠ viz_html "simple" →
         files (fs w2) !! p = files (fs Toy.fitted) !! p.
Proof.
  apply (viz_best_then_simple (H := Toy.lib) Toy.fitted
           Toy.model3 (2, Toy.tenth, Toy.tenth)); reflexivity.
Defined.

Lemma simple_fit_then_viz_witness :
  ∃ w1 w2,
    simple_fit (H := Toy.lib) 2 Toy.tenth Toy.tenth (Toy.fresh [])
    = (Ok (2, Toy.tenth, Toy.tenth), w1) ∧
    simple_model (self w1) = Some (2, Toy.tenth, Toy.tenth) ∧
    best_params (self w1) = best_params (self (Toy.fresh [])) ∧
    viz (H := Toy.lib) "simple" w1 = (Ok 2, w2) ∧
    files (fs w2) !! simple_topics_csv
    = Some (CsvFile (simple_topics_rows
                       (print_topics (Library := Toy.lib) (2, Toy.tenth, Toy.tenth)))) ∧
    files (fs w2) !! simple_model_file
    = Some (SavedLda (H := Toy.lib) (2, Toy.tenth, Toy.tenth)) ∧
    files (fs w2) !! viz_html "simple" = Some (HtmlFile (H := Toy.lib) 2).
Proof.
  apply (simple_fit_then_viz (H := Toy.lib) (Toy.fresh []) 2 Toy.tenth Toy.tenth
           (2, Toy.tenth, Toy.tenth) (Fin (4 # 10)) (Fin (- (7 # 1))) 2); reflexivity.
Defined.

Lemma DTM_exports_every_topic_witness :
  ∃ w',
    DTM (H := Toy.lib) Toy.two_batches Toy.sliced = (Ok tt, w') ∧
    self w' = self Toy.sliced ∧
    files (fs w') !! dtm_model_file = Some (SavedSeq Toy.seq3) ∧
    length Toy.frames3 = Z.to_nat 3 ∧
    (∀ i df, Toy.frames3 !! i = Some df →
       files (fs w') !! topic_csv i = Some (FrameCsv df)) ∧
    (∀ p, p ≠ dtm_model_file →
          (∀ i, (i < length Toy.frames3)%nat → p ≠ topic_csv i) →
          files (fs w') !! p = files (fs Toy.sliced) !! p).
Proof.
  eapply (DTM_exports_every_topic (H := Toy.lib) Toy.sliced Toy.two_batches
            3 Toy.tenth Toy.tenth Toy.seq3 _ Toy.labels2 Toy.frames3);
    reflexivity.
Defined.

Lemma DTM_raises_after_saving_witness :
  DTM (H := Toy.lib) [[2000; 2001]; []] Toy.sliced
  = (Raise (IndexError "list index out of range"), model_saved Toy.sliced Toy.seq3).
Proof.
  destruct (DTM_raises_after_saving (H := Toy.lib) Toy.sliced [[2000; 2001]; []]
              3 Toy.tenth Toy.tenth) as [_ Hbuilt]; [reflexivity|].
  destruct (Hbuilt Toy.seq3) as (_ & Hempty & _); [reflexivity|].
  eapply Hempty; [reflexivity|]. apply list_elem_of_further, list_elem_of_here.
Defined.

Lemma DTM_then_DTM_upload_witness :
  ∃ w1,
    DTM (H := Toy.lib) Toy.two_batches Toy.sliced = (Ok tt, w1) ∧
    DTM_upload Toy.load Toy.two_batches w1 = (Ok Toy.seq3, w1).
Proof.
  eapply (DTM_then_DTM_upload (H := Toy.lib) Toy.load Toy.sliced Toy.two_batches
            3 Toy.tenth Toy.tenth Toy.seq3 _ Toy.labels2 Toy.frames3);
    [apply toy_loads_saved | reflexivity..].
Defined.

Lemma DTM_upload_errors_witness :
  (∃ e, DTM_upload Toy.load Toy.two_batches (Toy.fresh []) = (Raise e, Toy.fresh [])) ∧
  DTM_upload Toy.load Toy.two_batches Toy.restarted
  = (Raise (TypeError "'NoneType' object is not subscriptable"), Toy.restarted) ∧
  DTM_upload Toy.load [[2000; 2001]; []] Toy.exported_world
  = (Raise (IndexError "list index out of range"), Toy.exported_world).
Proof.
  split; [|split].
  - apply (proj1 (DTM_upload_errors (H := Toy.lib) Toy.load Toy.two_batches));
      [apply toy_loads_saved | reflexivity].
  - apply (proj1 (proj2 (DTM_upload_errors (H := Toy.lib) Toy.load Toy.two_batches))
             Toy.restarted Toy.seq3); reflexivity.
  - destruct (proj2 (proj2 (DTM_upload_errors (H := Toy.lib) Toy.load
                              [[2000; 2001]; []]))
                Toy.exported_world Toy.seq3 3 Toy.tenth Toy.tenth)
      as [_ Hempty]; [reflexivity..|].
    eapply Hempty; [reflexivity|]. apply list_elem_of_further, list_elem_of_here.
Defined.
